(** * Commitment tracking models: a shallow embedding of
      [src/models/commitments.py]

    The module declares three ORM-mapped tables ([commitments],
    [commitment_emails], [commitment_calendar_events]) and three helper
    functions working through a database session.  The embedding keeps the
    tables as lists of rows, threads the session explicitly through every
    helper, and reports a raised exception as a value.

    Conventions of the embedding:
    - a nullable column, and an optional argument whose default is [None],
      is an [option]; an argument with another default is an [option] whose
      [None] means "argument omitted";
    - what the program draws from its environment ([uuid.uuid4()],
      [datetime.utcnow()], the server's [now()]) is an explicit [Env];
    - [session.commit()] writes the pending rows after checking the
      constraints the table declarations carry (primary keys, the two
      unique constraints, the foreign keys to [commitments.id]); a failed
      commit leaves the tables as they were;
    - for a loaded object the commit sends the attributes that were
      assigned and differ from the loaded values; a change made in place
      inside the [metadata] dictionary is not an assignment and is not
      sent, the column being a plain [JSONB];
    - the session has the default settings: a commit expires the loaded
      objects, so that the next call reads the stored rows;
    - a [Session] value is a session that accepts calls.  After a failed
      commit the session refuses further calls until the caller rolls
      back, which no helper does; runs of calls ([run_all]) follow that;
    - a timestamp column is kept as the datetime last assigned to it; how
      a reload renders the stored instant is not modelled. *)

From Stdlib Require Import ZArith List String Ascii Bool Lia.
Import ListNotations.
Open Scope string_scope.
Open Scope Z_scope.

Set Warnings "-register-all".

(** ** Python values *)

(** A Python [float], kept as its IEEE-754 binary64 bit pattern: the
    program stores and returns confidence scores and never computes on
    them. *)
Definition float : Type := Z.

(** JSON-compatible Python objects: what a [JSONB] column holds and what
    [to_dict] returns.  A [dict] keeps its insertion order. *)
Inductive value : Type :=
| PNone
| PBool (b : bool)
| PInt (n : Z)
| PFloat (f : float)
| PStr (s : string)
| PList (l : list value)
| PDict (d : list (string * value)).

Definition dict : Type := list (string * value).

(** [d[k]] / [d.get(k)] *)
Fixpoint dict_get (d : dict) (k : string) : option value :=
  match d with
  | [] => None
  | (k', v) :: d' => if String.eqb k k' then Some v else dict_get d' k
  end.

(** [k in d] *)
Definition dict_mem (k : string) (d : dict) : bool :=
  match dict_get d k with Some _ => true | None => false end.

(** [d[k] = v]: an existing key keeps its position, a new key goes last. *)
Fixpoint dict_set (d : dict) (k : string) (v : value) : dict :=
  match d with
  | [] => [(k, v)]
  | (k', v') :: d' =>
      if String.eqb k k' then (k', v) :: d' else (k', v') :: dict_set d' k v
  end.

Definition of_opt_str (o : option string) : value :=
  match o with Some s => PStr s | None => PNone end.

Definition of_opt_float (o : option float) : value :=
  match o with Some f => PFloat f | None => PNone end.

(** ** Exceptions *)

Inductive db_violation : Type :=
| UniqueViolation (constraint : string)
| ForeignKeyViolation (constraint : string).

Inductive exn : Type :=
| ValueError (msg : string)
| TypeError
| AttributeError
| IntegrityError (v : db_violation).

Inductive result (A : Type) : Type :=
| Ok (a : A)
| Raise (e : exn).
Arguments Ok {A} a.
Arguments Raise {A} e.

(** ** Text rendering of numbers *)

Definition digit_char (n : Z) : ascii :=
  ascii_of_nat (Z.to_nat (if n <? 10 then 48 + n else 87 + n)).

(** [n] in base [b] on exactly [w] digits, zero padded ([%0wd], [%0wx]). *)
Fixpoint pad_digits (b : Z) (w : nat) (n : Z) : string :=
  match w with
  | O => ""
  | S w' => pad_digits b w' (n / b) ++ String (digit_char (n mod b)) ""
  end.

(** ** [uuid.UUID] *)

(** A UUID is its 128-bit integer ([UUID.int]). *)
Definition uuid : Type := Z.

(** [str(u)]: 32 hexadecimal digits grouped 8-4-4-4-12. *)
Definition str_uuid (u : uuid) : string :=
  let h := pad_digits 16 32 u in
  substring 0 8 h ++ "-" ++ substring 8 4 h ++ "-" ++ substring 12 4 h
    ++ "-" ++ substring 16 4 h ++ "-" ++ substring 20 12 h.

Arguments str_uuid : simpl never.

(** ** [datetime.datetime] *)

(** The fields of a [datetime]; [utcoffset] is the offset of an aware value
    in whole minutes east of UTC, [None] for a naive value. *)
Record datetime : Type := mk_datetime {
  year : Z; month : Z; day : Z;
  hour : Z; minute : Z; second : Z; microsecond : Z;
  utcoffset : option Z
}.

(** [datetime.isoformat()] with the default separator and time spec. *)
Definition isoformat (d : datetime) : string :=
  pad_digits 10 4 (year d) ++ "-" ++ pad_digits 10 2 (month d) ++ "-"
    ++ pad_digits 10 2 (day d) ++ "T" ++ pad_digits 10 2 (hour d) ++ ":"
    ++ pad_digits 10 2 (minute d) ++ ":" ++ pad_digits 10 2 (second d)
    ++ (if microsecond d =? 0 then ""
        else "." ++ pad_digits 10 6 (microsecond d))
    ++ match utcoffset d with
       | None => ""
       | Some off =>
           (if off <? 0 then "-" else "+")
             ++ pad_digits 10 2 (Z.abs off / 60) ++ ":"
             ++ pad_digits 10 2 (Z.abs off mod 60)
       end.

Arguments isoformat : simpl never.

Definition of_opt_datetime (o : option datetime) : value :=
  match o with Some d => PStr (isoformat d) | None => PNone end.

Definition is_leap (y : Z) : bool :=
  (y mod 4 =? 0) && (negb (y mod 100 =? 0) || (y mod 400 =? 0)).

Definition days_before_year (y : Z) : Z :=
  let p := y - 1 in p * 365 + p / 4 - p / 100 + p / 400.

Definition days_before_month (y m : Z) : Z :=
  nth (Z.to_nat m) [0; 0; 31; 59; 90; 120; 151; 181; 212; 243; 273; 304; 334] 0
    + (if (2 <? m) && is_leap y then 1 else 0).

(** Proleptic Gregorian ordinal of the date part ([date.toordinal()]). *)
Definition toordinal (d : datetime) : Z :=
  days_before_year (year d) + days_before_month (year d) (month d) + day d.

(** Microseconds on the time line; an aware value is shifted by its
    offset, so that two aware values compare as instants. *)
Definition instant (d : datetime) : Z :=
  let mins := (toordinal d * 24 + hour d) * 60 + minute d
              - match utcoffset d with Some off => off | None => 0 end in
  (mins * 60 + second d) * 1000000 + microsecond d.

(** [a < b] on datetimes.  Python orders two naive or two aware values and
    refuses to order a naive value against an aware one; the refusal
    counts as "not before" here. *)
Definition dt_lt (a b : datetime) : bool :=
  match utcoffset a, utcoffset b with
  | None, None | Some _, Some _ => instant a <? instant b
  | _, _ => false
  end.

(** ** The mapped classes *)

(** A row of [commitments].  Columns with a Python-side or server-side
    default hold the value the default produced once the row is written. *)
Module Commitment.
Record t : Type := mk {
  id : uuid;
  title : string;
  description : option string;
  commitment_type : string;
  status : string;
  start_date : option datetime;
  end_date : option datetime;
  timezone : option string;
  date_certainty : string;
  participants : value;
  organizer : option string;
  location : option string;
  meeting_links : value;
  auto_linked : bool;
  confidence_score : option float;
  metadata : value;
  created_at : option datetime;
  updated_at : option datetime
}.
End Commitment.

(** A row of [commitment_emails]. *)
Module CommitmentEmail.
Record t : Type := mk {
  id : uuid;
  commitment_id : uuid;
  message_id : string;
  linked_at : option datetime;
  linked_by : string;
  confidence_score : option float;
  link_reason : option string
}.
End CommitmentEmail.

(** A row of [commitment_calendar_events]. *)
Module CommitmentCalendarEvent.
Record t : Type := mk {
  id : uuid;
  commitment_id : uuid;
  event_id : string;
  event_data : value;
  linked_at : option datetime;
  linked_by : string;
  confidence_score : option float;
  link_reason : option string
}.
End CommitmentCalendarEvent.

(** Record updates for the attributes the helpers assign. *)
Definition set_metadata (c : Commitment.t) (m : value) : Commitment.t :=
  Commitment.mk (Commitment.id c) (Commitment.title c)
    (Commitment.description c) (Commitment.commitment_type c)
    (Commitment.status c) (Commitment.start_date c) (Commitment.end_date c)
    (Commitment.timezone c) (Commitment.date_certainty c)
    (Commitment.participants c) (Commitment.organizer c)
    (Commitment.location c) (Commitment.meeting_links c)
    (Commitment.auto_linked c) (Commitment.confidence_score c) m
    (Commitment.created_at c) (Commitment.updated_at c).

Definition set_start_date (c : Commitment.t) (d : option datetime)
  : Commitment.t :=
  Commitment.mk (Commitment.id c) (Commitment.title c)
    (Commitment.description c) (Commitment.commitment_type c)
    (Commitment.status c) d (Commitment.end_date c)
    (Commitment.timezone c) (Commitment.date_certainty c)
    (Commitment.participants c) (Commitment.organizer c)
    (Commitment.location c) (Commitment.meeting_links c)
    (Commitment.auto_linked c) (Commitment.confidence_score c)
    (Commitment.metadata c) (Commitment.created_at c)
    (Commitment.updated_at c).

Definition set_end_date (c : Commitment.t) (d : option datetime)
  : Commitment.t :=
  Commitment.mk (Commitment.id c) (Commitment.title c)
    (Commitment.description c) (Commitment.commitment_type c)
    (Commitment.status c) (Commitment.start_date c) d
    (Commitment.timezone c) (Commitment.date_certainty c)
    (Commitment.participants c) (Commitment.organizer c)
    (Commitment.location c) (Commitment.meeting_links c)
    (Commitment.auto_linked c) (Commitment.confidence_score c)
    (Commitment.metadata c) (Commitment.created_at c)
    (Commitment.updated_at c).

Definition set_date_certainty (c : Commitment.t) (s : string)
  : Commitment.t :=
  Commitment.mk (Commitment.id c) (Commitment.title c)
    (Commitment.description c) (Commitment.commitment_type c)
    (Commitment.status c) (Commitment.start_date c) (Commitment.end_date c)
    (Commitment.timezone c) s
    (Commitment.participants c) (Commitment.organizer c)
    (Commitment.location c) (Commitment.meeting_links c)
    (Commitment.auto_linked c) (Commitment.confidence_score c)
    (Commitment.metadata c) (Commitment.created_at c)
    (Commitment.updated_at c).

(** ** The environment and the session *)

(** What one call reads from outside: the identifier [uuid.uuid4()]
    returns, Python's clock, the database server's clock, and the offset
    (minutes east of UTC) of the time zone of the database session. *)
Record Env : Type := mk_env {
  uuid4 : uuid;
  utcnow : datetime;
  now : datetime;
  session_utcoffset : Z
}.

(** The three tables behind a session. *)
Record Session : Type := mk_session {
  commitments : list Commitment.t;
  commitment_emails : list CommitmentEmail.t;
  commitment_calendar_events : list CommitmentCalendarEvent.t
}.

Definition empty_session : Session := mk_session [] [] [].

(** [session.query(Commitment).filter_by(id=commitment_id).first()] *)
Definition query_commitment (session : Session) (commitment_id : uuid)
  : option Commitment.t :=
  find (fun c => Commitment.id c =? commitment_id) (commitments session).

(** The relationship collections [linked_emails] and
    [linked_calendar_events] of a commitment: the link rows whose foreign
    key is its id. *)
Definition linked_emails (session : Session) (self : Commitment.t)
  : list CommitmentEmail.t :=
  filter (fun l => CommitmentEmail.commitment_id l =? Commitment.id self)
    (commitment_emails session).

Definition linked_calendar_events (session : Session) (self : Commitment.t)
  : list CommitmentCalendarEvent.t :=
  filter
    (fun l => CommitmentCalendarEvent.commitment_id l =? Commitment.id self)
    (commitment_calendar_events session).

(** ** [Commitment] methods *)

(** [Commitment.to_dict]; the session is where the two relationship
    collections are loaded from. *)
Definition to_dict (session : Session) (self : Commitment.t) : dict :=
  [ ("id", PStr (str_uuid (Commitment.id self)));
    ("title", PStr (Commitment.title self));
    ("description", of_opt_str (Commitment.description self));
    ("commitment_type", PStr (Commitment.commitment_type self));
    ("status", PStr (Commitment.status self));
    ("start_date", of_opt_datetime (Commitment.start_date self));
    ("end_date", of_opt_datetime (Commitment.end_date self));
    ("timezone", of_opt_str (Commitment.timezone self));
    ("date_certainty", PStr (Commitment.date_certainty self));
    ("participants", Commitment.participants self);
    ("organizer", of_opt_str (Commitment.organizer self));
    ("location", of_opt_str (Commitment.location self));
    ("meeting_links", Commitment.meeting_links self);
    ("auto_linked", PBool (Commitment.auto_linked self));
    ("confidence_score", of_opt_float (Commitment.confidence_score self));
    ("metadata", Commitment.metadata self);
    ("created_at", of_opt_datetime (Commitment.created_at self));
    ("updated_at", of_opt_datetime (Commitment.updated_at self));
    ("email_count",
      PInt (Z.of_nat (List.length (linked_emails session self))));
    ("calendar_event_count",
      PInt (Z.of_nat (List.length (linked_calendar_events session self)))) ].

(** The entry [add_date_history_entry] appends. *)
Definition history_entry (env : Env) (date_info source : string) : value :=
  PDict [ ("date", PStr date_info);
          ("source", PStr source);
          ("updated_at", PStr (isoformat (utcnow env))) ].

(** [Commitment.add_date_history_entry].  A [metadata] that is neither
    [None] nor a [dict] makes the membership test or the item assignment
    raise [TypeError]; a ['date_history'] that is not a list has no
    [append] and raises [AttributeError].  Both happen before anything is
    assigned. *)
Definition add_date_history_entry (env : Env) (self : Commitment.t)
    (date_info source : string) : result Commitment.t :=
  let metadata :=
    match Commitment.metadata self with
    | PNone => PDict []
    | m => m
    end in
  match metadata with
  | PDict d =>
      let d :=
        if negb (dict_mem "date_history" d)
        then dict_set d "date_history" (PList [])
        else d in
      match dict_get d "date_history" with
      | Some (PList l) =>
          let l := (l ++ [history_entry env date_info source])%list in
          Ok (set_metadata self (PDict (dict_set d "date_history" (PList l))))
      | _ => Raise AttributeError
      end
  | _ => Raise TypeError
  end.

(** ** Commit *)

(** Some row of [commitments] has this primary key. *)
Definition has_commitment (session : Session) (u : uuid) : bool :=
  existsb (fun c => Commitment.id c =? u) (commitments session).

(** The row is an email link of this (commitment, message) pair. *)
Definition same_link (commitment_id : uuid) (message_id : string)
    (r : CommitmentEmail.t) : bool :=
  (CommitmentEmail.commitment_id r =? commitment_id)
  && String.eqb (CommitmentEmail.message_id r) message_id.

(** INSERT of a pending [Commitment]: the primary key must be new. *)
Definition insert_commitment (session : Session) (c : Commitment.t)
  : Session * result Commitment.t :=
  if has_commitment session (Commitment.id c)
  then (session, Raise (IntegrityError (UniqueViolation "commitments_pkey")))
  else (mk_session (commitments session ++ [c]) (commitment_emails session)
          (commitment_calendar_events session), Ok c).

(** INSERT of a pending [CommitmentEmail].  The unique indexes (primary
    key, then [uq_commitment_email]) are checked as the row is written,
    the foreign key to [commitments.id] when the statement ends. *)
Definition insert_commitment_email (session : Session)
    (link : CommitmentEmail.t) : Session * result CommitmentEmail.t :=
  if existsb (fun r => CommitmentEmail.id r =? CommitmentEmail.id link)
       (commitment_emails session)
  then (session,
        Raise (IntegrityError (UniqueViolation "commitment_emails_pkey")))
  else if existsb
            (same_link (CommitmentEmail.commitment_id link)
               (CommitmentEmail.message_id link))
            (commitment_emails session)
  then (session,
        Raise (IntegrityError (UniqueViolation "uq_commitment_email")))
  else if negb (has_commitment session (CommitmentEmail.commitment_id link))
  then (session,
        Raise (IntegrityError
                 (ForeignKeyViolation "commitment_emails_commitment_id_fkey")))
  else (mk_session (commitments session) (commitment_emails session ++ [link])
          (commitment_calendar_events session), Ok link).

(** *** UPDATE of a loaded [Commitment]

    The unit of work sends the attributes that were assigned since the
    load and whose value differs ([==]) from the loaded one.  A change
    made in place inside a loaded value, such as an [append] to a list
    inside the [metadata] dictionary, is no assignment: the column is a
    plain [JSONB], without mutation tracking, and the change is dropped
    when the commit expires the object.  When nothing is left to send, no
    UPDATE is emitted and [updated_at] ([onupdate=func.now()]) keeps its
    value. *)

(** The attribute [name] was assigned since the load. *)
Definition was_set (name : string) (assigned : list string) : bool :=
  existsb (String.eqb name) assigned.

(** The instant a stored timestamp stands for: the column has a time
    zone, and a value given without offset is read in the time zone of
    the session. *)
Definition stored_instant (env : Env) (d : datetime) : Z :=
  instant
    (mk_datetime (year d) (month d) (day d) (hour d) (minute d) (second d)
       (microsecond d)
       (Some match utcoffset d with
             | Some off => off
             | None => session_utcoffset env
             end)).

(** [loaded == value] on a timestamp attribute.  A loaded timestamp is
    aware: a value without offset never equals it, and an aware value
    equals it when both are the same instant. *)
Definition same_timestamp (env : Env) (loaded value : option datetime)
  : bool :=
  match loaded, value with
  | None, None => true
  | Some l, Some v =>
      match utcoffset v with
      | Some _ => stored_instant env l =? instant v
      | None => false
      end
  | _, _ => false
  end.

Arguments same_timestamp : simpl never.

(** The row the commit leaves for the object loaded as [loaded], being
    [commitment] at commit, with the attributes [assigned] since the
    load.  [metadata] is only ever assigned a dictionary in place of
    [None], which differs from it. *)
Definition flush_commitment (env : Env) (loaded commitment : Commitment.t)
    (assigned : list string) : Commitment.t :=
  let changed :=
    was_set "metadata" assigned
    || (was_set "start_date" assigned
        && negb (same_timestamp env (Commitment.start_date loaded)
                   (Commitment.start_date commitment)))
    || (was_set "end_date" assigned
        && negb (same_timestamp env (Commitment.end_date loaded)
                   (Commitment.end_date commitment)))
    || (was_set "date_certainty" assigned
        && negb (String.eqb (Commitment.date_certainty loaded)
                   (Commitment.date_certainty commitment))) in
  Commitment.mk (Commitment.id loaded) (Commitment.title loaded)
    (Commitment.description loaded) (Commitment.commitment_type loaded)
    (Commitment.status loaded)
    (if was_set "start_date" assigned then Commitment.start_date commitment
     else Commitment.start_date loaded)
    (if was_set "end_date" assigned then Commitment.end_date commitment
     else Commitment.end_date loaded)
    (Commitment.timezone loaded)
    (if was_set "date_certainty" assigned
     then Commitment.date_certainty commitment
     else Commitment.date_certainty loaded)
    (Commitment.participants loaded) (Commitment.organizer loaded)
    (Commitment.location loaded) (Commitment.meeting_links loaded)
    (Commitment.auto_linked loaded) (Commitment.confidence_score loaded)
    (if was_set "metadata" assigned then Commitment.metadata commitment
     else Commitment.metadata loaded)
    (Commitment.created_at loaded)
    (if changed then Some (now env) else Commitment.updated_at loaded).

Definition update_commitment (session : Session) (env : Env)
    (loaded commitment : Commitment.t) (assigned : list string) : Session :=
  mk_session
    (map (fun r =>
            if Commitment.id r =? Commitment.id loaded
            then flush_commitment env loaded commitment assigned else r)
       (commitments session))
    (commitment_emails session) (commitment_calendar_events session).

(** ** Helper functions *)

(** The keyword arguments [create_commitment] passes on to the
    [Commitment] constructor, one per remaining column; [None] is a
    keyword that was not given. *)
Module Kwargs.
Record t : Type := mk {
  id : option uuid;
  description : option string;
  status : option string;
  timezone : option string;
  participants : option value;
  organizer : option string;
  location : option string;
  meeting_links : option value;
  auto_linked : option bool;
  confidence_score : option float;
  metadata : option value;
  created_at : option datetime;
  updated_at : option datetime
}.
Definition none : t :=
  mk None None None None None None None None None None None None None.
End Kwargs.

Definition default {A : Type} (d : A) (o : option A) : A :=
  match o with Some a => a | None => d end.

(** [create_commitment] *)
Definition create_commitment (session : Session) (env : Env)
    (title : string) (commitment_type : option string)
    (start_date end_date : option datetime) (date_certainty : option string)
    (kwargs : Kwargs.t) : Session * result Commitment.t :=
  let commitment :=
    Commitment.mk
      (default (uuid4 env) (Kwargs.id kwargs))
      title
      (Kwargs.description kwargs)
      (default "meeting" commitment_type)
      (default "active" (Kwargs.status kwargs))
      start_date
      end_date
      (Kwargs.timezone kwargs)
      (default "unknown" date_certainty)
      (default (PList []) (Kwargs.participants kwargs))
      (Kwargs.organizer kwargs)
      (Kwargs.location kwargs)
      (default (PList []) (Kwargs.meeting_links kwargs))
      (default false (Kwargs.auto_linked kwargs))
      (Kwargs.confidence_score kwargs)
      (default (PDict []) (Kwargs.metadata kwargs))
      (Some (default (now env) (Kwargs.created_at kwargs)))
      (Some (default (now env) (Kwargs.updated_at kwargs))) in
  insert_commitment session commitment.

(** [link_email_to_commitment] *)
Definition link_email_to_commitment (session : Session) (env : Env)
    (commitment_id : uuid) (message_id : string) (linked_by : option string)
    (confidence_score : option float) (link_reason : option string)
  : Session * result CommitmentEmail.t :=
  let link :=
    CommitmentEmail.mk (uuid4 env) commitment_id message_id
      (Some (now env)) (default "ai" linked_by) confidence_score
      link_reason in
  insert_commitment_email session link.

(** [update_commitment_date] *)
Definition update_commitment_date (session : Session) (env : Env)
    (commitment_id : uuid) (start_date : datetime)
    (end_date : option datetime) (date_certainty source : option string)
  : Session * result unit :=
  match query_commitment session commitment_id with
  | None =>
      (session,
       Raise (ValueError
                ("Commitment " ++ str_uuid commitment_id ++ " not found")))
  | Some loaded =>
      let date_info := isoformat start_date in
      let date_info :=
        match end_date with
        | Some e => date_info ++ " to " ++ isoformat e
        | None => date_info
        end in
      match add_date_history_entry env loaded date_info
              (default "update" source) with
      | Raise e => (session, Raise e)
      | Ok commitment =>
          let commitment := set_start_date commitment (Some start_date) in
          let commitment :=
            match end_date with
            | Some e => set_end_date commitment (Some e)
            | None => commitment
            end in
          let commitment :=
            set_date_certainty commitment (default "exact" date_certainty) in
          let assigned :=
            (match Commitment.metadata loaded with
             | PNone => ["metadata"]
             | _ => []
             end
             ++ ["start_date"]
             ++ match end_date with Some _ => ["end_date"] | None => [] end
             ++ ["date_certainty"])%list in
          (update_commitment session env loaded commitment assigned, Ok tt)
      end
  end.

(** ** Observations on rows and sessions *)

(** The [date_history] log of a commitment: the list under that key of
    [metadata], empty while the key (or [metadata] itself) is absent. *)
Definition date_history (c : Commitment.t) : list value :=
  match Commitment.metadata c with
  | PDict d =>
      match dict_get d "date_history" with
      | Some (PList l) => l
      | _ => []
      end
  | _ => []
  end.

(** [metadata] has the shape the data model gives it: [None] or a [dict]
    whose ['date_history'], when present, is a list. *)
Definition history_ok (c : Commitment.t) : bool :=
  match Commitment.metadata c with
  | PNone => true
  | PDict d =>
      match dict_get d "date_history" with
      | None | Some (PList _) => true
      | Some _ => false
      end
  | _ => false
  end.

(** Both dates present implies the end does not precede the start. *)
Definition dates_ordered (c : Commitment.t) : bool :=
  match Commitment.start_date c, Commitment.end_date c with
  | Some s, Some e => negb (dt_lt e s)
  | _, _ => true
  end.

(** Number of persisted email links for a (commitment, message) pair. *)
Definition link_count (session : Session) (commitment_id : uuid)
    (message_id : string) : nat :=
  List.length
    (filter (same_link commitment_id message_id) (commitment_emails session)).

Definition fresh_commitment_id (session : Session) (u : uuid) : bool :=
  negb (has_commitment session u).

Definition fresh_email_id (session : Session) (u : uuid) : bool :=
  negb (existsb (fun r => CommitmentEmail.id r =? u)
          (commitment_emails session)).

(** No element of [l] is related by [eqb] to a later one. *)
Fixpoint uniqueb {A : Type} (eqb : A -> A -> bool) (l : list A) : bool :=
  match l with
  | [] => true
  | x :: l' => negb (existsb (eqb x) l') && uniqueb eqb l'
  end.

(** The constraints the table declarations put on the stored rows:
    primary keys, [uq_commitment_email], [uq_commitment_calendar_event]
    and the two foreign keys to [commitments.id]. *)
Definition session_ok (s : Session) : bool :=
  uniqueb (fun a b => Commitment.id a =? Commitment.id b) (commitments s)
  && uniqueb (fun a b => CommitmentEmail.id a =? CommitmentEmail.id b)
       (commitment_emails s)
  && uniqueb
       (fun a b =>
          same_link (CommitmentEmail.commitment_id a)
            (CommitmentEmail.message_id a) b)
       (commitment_emails s)
  && forallb (fun l => has_commitment s (CommitmentEmail.commitment_id l))
       (commitment_emails s)
  && uniqueb
       (fun a b =>
          CommitmentCalendarEvent.id a =? CommitmentCalendarEvent.id b)
       (commitment_calendar_events s)
  && uniqueb
       (fun a b =>
          (CommitmentCalendarEvent.commitment_id a
             =? CommitmentCalendarEvent.commitment_id b)
          && String.eqb (CommitmentCalendarEvent.event_id a)
               (CommitmentCalendarEvent.event_id b))
       (commitment_calendar_events s)
  && forallb
       (fun l => has_commitment s (CommitmentCalendarEvent.commitment_id l))
       (commitment_calendar_events s).

(** ** Calls as data *)

(** The arguments of one [update_commitment_date] call, with the
    environment it runs in. *)
Record refine_call : Type := mk_refine_call {
  rc_env : Env;
  rc_start_date : datetime;
  rc_end_date : option datetime;
  rc_date_certainty : option string;
  rc_source : option string
}.

Definition refine (session : Session) (commitment_id : uuid)
    (call : refine_call) : Session * result unit :=
  update_commitment_date session (rc_env call) commitment_id
    (rc_start_date call) (rc_end_date call) (rc_date_certainty call)
    (rc_source call).

Definition is_ok {A : Type} (r : result A) : bool :=
  match r with Ok _ => true | Raise _ => false end.

(** A run of [update_commitment_date] calls on one commitment: the final
    session and whether every call returned. *)
Fixpoint refine_all (session : Session) (commitment_id : uuid)
    (calls : list refine_call) : Session * bool :=
  match calls with
  | [] => (session, true)
  | call :: calls' =>
      let (session', r) := refine session commitment_id call in
      let (session'', ok) := refine_all session' commitment_id calls' in
      (session'', is_ok r && ok)
  end.

(** One call of any of the three helpers, or the caller's
    [session.rollback()]. *)
Inductive operation : Type :=
| CreateCommitment (env : Env) (title : string)
    (commitment_type : option string) (start_date end_date : option datetime)
    (date_certainty : option string) (kwargs : Kwargs.t)
| LinkEmail (env : Env) (commitment_id : uuid) (message_id : string)
    (linked_by : option string) (confidence_score : option float)
    (link_reason : option string)
| Refine (commitment_id : uuid) (call : refine_call)
| Rollback.

(** The tables after one call made on a session that accepts calls. *)
Definition run (o : operation) (session : Session) : Session :=
  match o with
  | CreateCommitment env title ty sd ed dc kw =>
      fst (create_commitment session env title ty sd ed dc kw)
  | LinkEmail env cid mid lb cs lr =>
      fst (link_email_to_commitment session env cid mid lb cs lr)
  | Refine cid call => fst (refine session cid call)
  | Rollback => session
  end.

(** The call raised from inside [session.commit()]. *)
Definition commit_failed {A : Type} (r : result A) : bool :=
  match r with
  | Raise (IntegrityError _) => true
  | _ => false
  end.

(** The call, made on a session that accepts calls, leaves it with a
    failed commit. *)
Definition leaves_failed (o : operation) (session : Session) : bool :=
  match o with
  | CreateCommitment env title ty sd ed dc kw =>
      commit_failed (snd (create_commitment session env title ty sd ed dc kw))
  | LinkEmail env cid mid lb cs lr =>
      commit_failed
        (snd (link_email_to_commitment session env cid mid lb cs lr))
  | Refine cid call => commit_failed (snd (refine session cid call))
  | Rollback => false
  end.

(** The tables after a run of calls on one session.  No helper rolls
    back: once a commit has failed ([failed]), every further helper call
    is refused and changes nothing, until the caller rolls back. *)
Fixpoint run_from (failed : bool) (ops : list operation) (session : Session)
  : Session :=
  match ops with
  | [] => session
  | Rollback :: ops' => run_from false ops' session
  | o :: ops' =>
      if failed then run_from true ops' session
      else run_from (leaves_failed o session) ops' (run o session)
  end.

Definition run_all (ops : list operation) (session : Session) : Session :=
  run_from false ops session.

(** ** Certainty lattice *)

Module CertaintyLattice.

Inductive error : Type :=
| InvalidCertainty (label : string).

Inductive outcome (A : Type) : Type :=
| Returns (a : A)
| Fails (e : error).
Arguments Returns {A} a.
Arguments Fails {A} e.

(** The labels, as the comment on the [date_certainty] column lists
    them. *)
Definition labels : list string :=
  ["unknown"; "month"; "week"; "day"; "exact"; "time_confirmed"].

Fixpoint position (label : string) (l : list string) : option nat :=
  match l with
  | [] => None
  | x :: l' =>
      if String.eqb label x then Some O
      else match position label l' with
           | Some n => Some (S n)
           | None => None
           end
  end.

(** Modelled from the spec: [rank] is not in [src/models/commitments.py],
    which only lists the labels in a comment.  "maps a certainty label to
    its order position; fails with InvalidCertainty for an unrecognized
    label", over the order unknown < month < week < day < exact <
    time_confirmed. *)
Definition rank (level : string) : outcome nat :=
  match position level labels with
  | Some n => Returns n
  | None => Fails (InvalidCertainty level)
  end.

(** Modelled from the spec: [is_refinement] is not in
    [src/models/commitments.py] either.  "true iff rank(new) >=
    rank(old)"; it fails where [rank] fails, the old label first. *)
Definition is_refinement (old new : string) : outcome bool :=
  match rank old with
  | Fails e => Fails e
  | Returns ro =>
      match rank new with
      | Fails e => Fails e
      | Returns rn => Returns (Nat.leb ro rn)
      end
  end.

End CertaintyLattice.

(** ** Runs of calls, read back *)

(** Whether a returning [update_commitment_date] call on the stored row
    [c] has anything to send: [metadata] assigned in place of [None], or
    an assigned date or certainty that differs from the stored one. *)
Definition refine_changes (env : Env) (c : Commitment.t)
    (start_date : datetime) (end_date : option datetime)
    (date_certainty : option string) : bool :=
  match Commitment.metadata c with PNone => true | _ => false end
  || negb (same_timestamp env (Commitment.start_date c) (Some start_date))
  || match end_date with
     | Some e => negb (same_timestamp env (Commitment.end_date c) (Some e))
     | None => false
     end
  || negb (String.eqb (Commitment.date_certainty c)
             (default "exact" date_certainty)).

(** The row a returning [update_commitment_date] call leaves in place of
    the stored row [c]. *)
Definition refined_row (env : Env) (c : Commitment.t)
    (start_date : datetime) (end_date : option datetime)
    (date_certainty source : option string) : Commitment.t :=
  Commitment.mk (Commitment.id c) (Commitment.title c)
    (Commitment.description c) (Commitment.commitment_type c)
    (Commitment.status c) (Some start_date)
    (match end_date with
     | Some e => Some e
     | None => Commitment.end_date c
     end)
    (Commitment.timezone c) (default "exact" date_certainty)
    (Commitment.participants c) (Commitment.organizer c)
    (Commitment.location c) (Commitment.meeting_links c)
    (Commitment.auto_linked c) (Commitment.confidence_score c)
    (match Commitment.metadata c with
     | PNone =>
         PDict [("date_history",
                 PList [history_entry env
                          (match end_date with
                           | Some e =>
                               isoformat start_date ++ " to " ++ isoformat e
                           | None => isoformat start_date
                           end)
                          (default "update" source)])]
     | m => m
     end)
    (Commitment.created_at c)
    (if refine_changes env c start_date end_date date_certainty
     then Some (now env) else Commitment.updated_at c).

(** The end date a run of calls leaves: the last one supplied, the
    initial one when none was. *)
Definition last_end (e0 : option datetime) (calls : list refine_call)
  : option datetime :=
  fold_left
    (fun e call =>
       match rc_end_date call with Some x => Some x | None => e end)
    calls e0.

(** Two rows agree on every column that [update_commitment_date] does
    not assign. *)
Definition same_descriptive (c c' : Commitment.t) : Prop :=
  Commitment.id c' = Commitment.id c
  /\ Commitment.title c' = Commitment.title c
  /\ Commitment.description c' = Commitment.description c
  /\ Commitment.commitment_type c' = Commitment.commitment_type c
  /\ Commitment.status c' = Commitment.status c
  /\ Commitment.timezone c' = Commitment.timezone c
  /\ Commitment.participants c' = Commitment.participants c
  /\ Commitment.organizer c' = Commitment.organizer c
  /\ Commitment.location c' = Commitment.location c
  /\ Commitment.meeting_links c' = Commitment.meeting_links c
  /\ Commitment.auto_linked c' = Commitment.auto_linked c
  /\ Commitment.confidence_score c' = Commitment.confidence_score c
  /\ Commitment.created_at c' = Commitment.created_at c.

(** ** A sample run

    The scenario of a trip first known by its month and refined twice. *)

Definition december (d h : Z) : datetime := mk_datetime 2025 12 d h 0 0 0 None.

(** The environment of a call made at hour [h] of 3 November 2025 that
    draws [u] as its identifier, on a session in UTC. *)
Definition env_at (u : uuid) (h : Z) : Env :=
  mk_env u (mk_datetime 2025 11 3 h 0 0 0 None)
    (mk_datetime 2025 11 3 h 0 0 0 (Some 0)) 0.

Definition offsite_created : Session :=
  fst (create_commitment empty_session (env_at 1 9) "Team Offsite"
         (Some "trip") (Some (december 1 0)) None (Some "month") Kwargs.none).

Definition offsite_refined : Session :=
  fst (update_commitment_date offsite_created (env_at 2 10) 1
         (december 15 0) (Some (december 17 0)) (Some "day")
         (Some "email-1")).

Definition offsite_confirmed : Session :=
  fst (update_commitment_date offsite_refined (env_at 3 11) 1
         (december 15 14) None (Some "exact") (Some "email-2")).

Definition offsite_day : Commitment.t :=
  Eval vm_compute in
    match query_commitment offsite_refined 1 with
    | Some c => c
    | None => Commitment.mk 0 "" None "" "" None None None "" PNone None None
                PNone false None PNone None None
    end.

Definition offsite_calls : list refine_call :=
  [ mk_refine_call (env_at 2 10) (december 15 0) (Some (december 17 0))
      (Some "day") (Some "email-1");
    mk_refine_call (env_at 3 11) (december 15 14) None (Some "exact")
      (Some "email-2");
    mk_refine_call (env_at 4 12) (december 15 14) None (Some "exact")
      (Some "email-2") ].

(** 0.42 as a binary64 bit pattern. *)
Definition confidence_042 : float := 4601237667291888353.

Definition offsite_linked : Session :=
  fst (link_email_to_commitment offsite_created (env_at 10 12) 1 "msg-1"
         (Some "ai") (Some confidence_042) None).

Definition offsite : Commitment.t :=
  Commitment.mk 1 "Team Offsite" None "trip" "active"
    (Some (december 1 0)) None None "month" (PList []) None None (PList [])
    false None (PDict []) (Some (now (env_at 1 9))) (Some (now (env_at 1 9))).

(** A commitment whose [metadata] carries other keys, one whose
    ['date_history'] is not a list, and one whose [metadata] is a list. *)
Definition tagged : Commitment.t :=
  Commitment.mk 2 "Launch" None "project" "active" None None None "unknown"
    (PList []) None None (PList []) false None
    (PDict [("project", PStr "Q4"); ("attachments", PList [])])
    (Some (now (env_at 2 9))) (Some (now (env_at 2 9))).

Definition broken_history : Commitment.t :=
  Commitment.mk 3 "Audit" None "deadline" "active" None None None "unknown"
    (PList []) None None (PList []) false None
    (PDict [("date_history", PStr "2025")])
    (Some (now (env_at 3 9))) (Some (now (env_at 3 9))).

Definition broken_metadata : Commitment.t :=
  Commitment.mk 4 "Review" None "meeting" "active" None None None "unknown"
    (PList []) None None (PList []) false None (PList [PStr "x"])
    (Some (now (env_at 4 9))) (Some (now (env_at 4 9))).

(** A commitment with every optional column but [end_date] and
    [updated_at] filled, in a session holding two email links and one
    calendar link for it and one email link for another commitment. *)
Definition serialized : Commitment.t :=
  Commitment.mk 5 "Board review" (Some "Quarterly figures") "meeting"
    "completed" (Some (mk_datetime 2025 12 15 14 0 0 0 (Some 60))) None
    (Some "Europe/Paris") "exact"
    (PList [PDict [("email", PStr "a@example.org"); ("name", PStr "A");
                   ("role", PStr "chair")]])
    (Some "a@example.org") (Some "Room 4")
    (PList [PStr "https://meet.example.org/board"]) true
    (Some confidence_042) (PDict [("project", PStr "Q4")])
    (Some (now (env_at 5 9))) None.

Definition serialized_session : Session :=
  mk_session [offsite; serialized]
    [ CommitmentEmail.mk 20 5 "msg-a" (Some (now (env_at 20 9))) "ai" None
        None;
      CommitmentEmail.mk 21 1 "msg-a" (Some (now (env_at 21 9))) "ai" None
        None;
      CommitmentEmail.mk 22 5 "msg-b" (Some (now (env_at 22 9))) "manual"
        None (Some "same thread") ]
    [ CommitmentCalendarEvent.mk 30 5 "evt-1" (PDict [])
        (Some (now (env_at 30 9))) "ai" None None ].

(** A commitment whose [metadata] is [None]. *)
Definition bare : Commitment.t :=
  Commitment.mk 6 "Call" None "meeting" "active" None None None "unknown"
    (PList []) None None (PList []) false None PNone
    (Some (now (env_at 6 9))) (Some (now (env_at 6 9))).

Definition bare_session : Session := mk_session [bare] [] [].

Definition mixed_session : Session :=
  mk_session [offsite; tagged; broken_history; broken_metadata] [] [].

Definition offsite_operations : list operation :=
  [ CreateCommitment (env_at 1 9) "Team Offsite" (Some "trip")
      (Some (december 1 0)) None (Some "month") Kwargs.none;
    LinkEmail (env_at 10 12) 1 "msg-1" (Some "ai") (Some confidence_042) None;
    LinkEmail (env_at 11 13) 1 "msg-1" None None None;
    Rollback;
    LinkEmail (env_at 12 13) 1 "msg-2" (Some "manual") None None;
    LinkEmail (env_at 13 13) 9 "msg-3" None None None;
    Rollback;
    Refine 1 (mk_refine_call (env_at 2 10) (december 15 0)
                (Some (december 17 0)) (Some "day") (Some "email-1"));
    CreateCommitment (env_at 1 14) "Clash" None None None None Kwargs.none ].

(** * Properties *)

(** ** Dictionaries *)

Lemma dict_get_set_same (d : dict) (k : string) (v : value) :
  dict_get (dict_set d k v) k = Some v.
Proof.
  induction d as [|[k' v'] d IH]; simpl.
  - now rewrite String.eqb_refl.
  - destruct (String.eqb k k') eqn:E; simpl; rewrite E; auto.
Qed.

Lemma dict_set_set (d : dict) (k : string) (v w : value) :
  dict_set (dict_set d k v) k w = dict_set d k w.
Proof.
  induction d as [|[k' v'] d IH]; simpl.
  - now rewrite String.eqb_refl.
  - destruct (String.eqb k k') eqn:E; simpl; rewrite E; congruence.
Qed.

(** ** Appending to the history *)

(** [add_date_history_entry] returns exactly on a well-shaped [metadata],
    and then the log is the old log followed by the new entry. *)
Lemma add_date_history_entry_ok (env : Env) (c : Commitment.t)
    (date_info source : string) :
  history_ok c = true ->
  exists c',
    add_date_history_entry env c date_info source = Ok c'
    /\ date_history c'
       = (date_history c ++ [history_entry env date_info source])%list
    /\ history_ok c' = true
    /\ c' = set_metadata c (Commitment.metadata c').
Proof.
  unfold history_ok, add_date_history_entry, date_history.
  destruct (Commitment.metadata c) as [| | | | | |d] eqn:M; try discriminate.
  - intros _. simpl. eexists. split; [reflexivity|]. simpl. auto.
  - unfold dict_mem.
    destruct (dict_get d "date_history") as [[| | | | |l|]|] eqn:G;
      try discriminate; intros _; simpl.
    + rewrite G. eexists. split; [reflexivity|]. simpl.
      rewrite dict_get_set_same. auto.
    + rewrite dict_get_set_same. eexists. split; [reflexivity|]. simpl.
      rewrite dict_get_set_same. auto.
Qed.

Lemma add_date_history_entry_raises (env : Env) (c : Commitment.t)
    (date_info source : string) :
  history_ok c = false ->
  exists e, add_date_history_entry env c date_info source = Raise e.
Proof.
  unfold history_ok, add_date_history_entry.
  destruct (Commitment.metadata c) as [| | | | | |d]; try discriminate;
    try (intros _; eexists; reflexivity).
  unfold dict_mem.
  destruct (dict_get d "date_history") as [[| | | | |l|]|] eqn:G;
    try discriminate; intros _; simpl; rewrite G; eexists; reflexivity.
Qed.

(** ** Looking rows up *)

Lemma query_commitment_id (s : Session) (cid : uuid) (c : Commitment.t) :
  query_commitment s cid = Some c -> Commitment.id c = cid.
Proof.
  unfold query_commitment. intros H.
  apply find_some in H. destruct H as [_ H]. now apply Z.eqb_eq.
Qed.

Lemma find_id_map (f : Commitment.t -> Commitment.t) (cid : uuid)
    (l : list Commitment.t) :
  (forall r, Commitment.id (f r) = Commitment.id r) ->
  find (fun c => Commitment.id c =? cid) (map f l)
  = option_map f (find (fun c => Commitment.id c =? cid) l).
Proof.
  intros Hf. induction l as [|r l IH]; simpl; [reflexivity|].
  rewrite Hf. destruct (Commitment.id r =? cid); [reflexivity|exact IH].
Qed.

(** After the row with the id of [c] is replaced by a row with the same
    id, a lookup by any id that resolved before still resolves: to the new
    row for the id of [c], to the old row otherwise. *)
Lemma query_replaced_row (s : Session) (c row : Commitment.t) (cid : uuid) :
  Commitment.id row = Commitment.id c ->
  query_commitment
    (mk_session
       (map (fun r => if Commitment.id r =? Commitment.id c then row else r)
          (commitments s))
       (commitment_emails s) (commitment_calendar_events s)) cid
  = option_map
      (fun r => if Commitment.id r =? Commitment.id c then row else r)
      (query_commitment s cid).
Proof.
  intros Hrow. unfold query_commitment. cbn [commitments].
  apply find_id_map. intros r.
  destruct (Commitment.id r =? Commitment.id c) eqn:E; [|reflexivity].
  apply Z.eqb_eq in E. now rewrite E.
Qed.

Lemma add_date_history_entry_none (env : Env) (c : Commitment.t)
    (date_info source : string) :
  Commitment.metadata c = PNone ->
  add_date_history_entry env c date_info source
  = Ok (set_metadata c
          (PDict [("date_history",
                   PList [history_entry env date_info source])])).
Proof.
  intros M. unfold add_date_history_entry. rewrite M. reflexivity.
Qed.

(** A returning [update_commitment_date] replaces the stored row by
    [refined_row] and touches nothing else.  The entry appended to the
    loaded [metadata] dictionary does not reach the row: only a
    [metadata] that was [None] is assigned, and with it sent. *)
Lemma update_commitment_date_returns (s : Session) (env : Env) (cid : uuid)
    (c : Commitment.t) (start_date : datetime) (end_date : option datetime)
    (date_certainty source : option string) :
  query_commitment s cid = Some c ->
  history_ok c = true ->
  update_commitment_date s env cid start_date end_date date_certainty source
  = (mk_session
       (map (fun r =>
               if Commitment.id r =? Commitment.id c
               then refined_row env c start_date end_date date_certainty
                      source
               else r) (commitments s))
       (commitment_emails s) (commitment_calendar_events s), Ok tt).
Proof.
  intros Hq Hok. unfold update_commitment_date. rewrite Hq. cbv zeta.
  destruct (Commitment.metadata c) as [| | | | | |d] eqn:M;
    try (unfold history_ok in Hok; rewrite M in Hok; discriminate).
  - rewrite add_date_history_entry_none by exact M.
    unfold update_commitment. f_equal. f_equal. apply map_ext. intros r.
    destruct (Commitment.id r =? Commitment.id c); [|reflexivity].
    unfold flush_commitment, refined_row, refine_changes. rewrite M.
    destruct end_date; reflexivity.
  - match goal with
    | |- context [add_date_history_entry ?e ?x ?di ?src] =>
        destruct (add_date_history_entry_ok e x di src Hok)
          as (c1 & Hadd & _ & _ & Hc1)
    end.
    rewrite Hadd.
    unfold update_commitment. f_equal. f_equal. apply map_ext. intros r.
    destruct (Commitment.id r =? Commitment.id c); [|reflexivity].
    unfold flush_commitment, refined_row, refine_changes.
    rewrite M, Hc1.
    destruct end_date; reflexivity.
Qed.

(** What one returning [update_commitment_date] call does to the row. *)
Lemma update_commitment_date_ok (s : Session) (env : Env) (cid : uuid)
    (c : Commitment.t) (start_date : datetime) (end_date : option datetime)
    (date_certainty source : option string) :
  query_commitment s cid = Some c ->
  history_ok c = true ->
  exists s' c',
    update_commitment_date s env cid start_date end_date date_certainty source
    = (s', Ok tt)
    /\ query_commitment s' cid = Some c'
    /\ Commitment.start_date c' = Some start_date
    /\ Commitment.end_date c'
       = match end_date with
         | Some e => Some e
         | None => Commitment.end_date c
         end
    /\ Commitment.date_certainty c' = default "exact" date_certainty
    /\ c' = refined_row env c start_date end_date date_certainty source
    /\ history_ok c' = true.
Proof.
  intros Hq Hok.
  rewrite (update_commitment_date_returns s env cid c start_date end_date
             date_certainty source Hq Hok).
  do 2 eexists. split; [reflexivity|].
  rewrite query_replaced_row by reflexivity. rewrite Hq. cbn [option_map].
  rewrite (query_commitment_id _ _ _ Hq), Z.eqb_refl.
  split; [reflexivity|]. repeat split.
  unfold history_ok in *. cbn [refined_row Commitment.metadata].
  destruct (Commitment.metadata c); try discriminate; auto.
Qed.

Lemma add_date_history_entry_inv (env : Env) (c c' : Commitment.t)
    (date_info source : string) :
  add_date_history_entry env c date_info source = Ok c' ->
  history_ok c = true.
Proof.
  intros H. destruct (history_ok c) eqn:E; [reflexivity|].
  destruct (add_date_history_entry_raises env c date_info source E) as [e He].
  congruence.
Qed.

Lemma find_app_some {A : Type} (p : A -> bool) (l l' : list A) (a : A) :
  find p l = Some a -> find p (l ++ l')%list = Some a.
Proof.
  induction l as [|x l IH]; simpl; [discriminate|].
  destruct (p x); auto.
Qed.

(** ** The sample run *)

Example offsite_created_row :
  query_commitment offsite_created 1 = Some offsite.
Proof. vm_compute. reflexivity. Qed.

Example offsite_refined_row :
  exists c,
    query_commitment offsite_refined 1 = Some c
    /\ Commitment.start_date c = Some (december 15 0)
    /\ Commitment.end_date c = Some (december 17 0)
    /\ Commitment.date_certainty c = "day"
    /\ Commitment.metadata c = PDict []
    /\ Commitment.updated_at c = Some (now (env_at 2 10)).
Proof. vm_compute. eexists. repeat split. Qed.

Example offsite_confirmed_row :
  exists c,
    query_commitment offsite_confirmed 1 = Some c
    /\ Commitment.start_date c = Some (december 15 14)
    /\ Commitment.end_date c = Some (december 17 0)
    /\ Commitment.date_certainty c = "exact"
    /\ date_history c = []
    /\ Commitment.updated_at c = Some (now (env_at 3 11)).
Proof. vm_compute. eexists. repeat split. Qed.

(** ** Refinement *)

(** C3: on an existing commitment, [update_commitment_date] overwrites
    [start_date] with the new start and [date_certainty] with the new
    certainty whatever the stored values were, and overwrites [end_date]
    only when a new end is given: without one the stored [end_date]
    stays. *)
Theorem refine_overwrites (s : Session) (env : Env) (cid : uuid)
    (c : Commitment.t) (new_start : datetime) (new_end : option datetime)
    (new_certainty : string) (source : option string) :
  query_commitment s cid = Some c ->
  history_ok c = true ->
  exists s' c',
    update_commitment_date s env cid new_start new_end (Some new_certainty)
      source = (s', Ok tt)
    /\ query_commitment s' cid = Some c'
    /\ Commitment.start_date c' = Some new_start
    /\ Commitment.date_certainty c' = new_certainty
    /\ Commitment.end_date c'
       = match new_end with
         | Some e => Some e
         | None => Commitment.end_date c
         end.
Proof.
  intros Hq Hok.
  destruct (update_commitment_date_ok s env cid c new_start new_end
              (Some new_certainty) source Hq Hok)
    as (s' & c' & Hrun & Hq' & Hs & He & Hc & _).
  exists s', c'. auto.
Qed.

Lemma refine_overwrites_witness :
  query_commitment offsite_refined 1 = Some offsite_day
  /\ history_ok offsite_day = true
  /\ exists s' c',
       update_commitment_date offsite_refined (env_at 3 11) 1
         (december 15 14) None (Some "unknown") (Some "email-2")
       = (s', Ok tt)
       /\ query_commitment s' 1 = Some c'
       /\ Commitment.start_date c' = Some (december 15 14)
       /\ Commitment.date_certainty c' = "unknown"
       /\ Commitment.end_date c' = Some (december 17 0).
Proof.
  split; [vm_compute; reflexivity|]. split; [reflexivity|].
  apply (refine_overwrites offsite_refined (env_at 3 11) 1 offsite_day
           (december 15 14) None "unknown" (Some "email-2"));
    vm_compute; reflexivity.
Defined.

(** C10: when [update_commitment_date] is called without a certainty and
    without a source on a stored commitment whose [metadata] is a
    dictionary, the defaults apply: the stored [date_certainty] becomes
    ['exact'], and the entry appended to the loaded object has source
    ['update'].  That entry is not stored: the stored [date_history] is
    what it was. *)
Theorem update_commitment_date_defaults (s : Session) (env : Env)
    (cid : uuid) (c : Commitment.t) (d : dict) (start_date : datetime) :
  query_commitment s cid = Some c ->
  Commitment.metadata c = PDict d ->
  history_ok c = true ->
  exists s' c' loaded,
    update_commitment_date s env cid start_date None None None = (s', Ok tt)
    /\ query_commitment s' cid = Some c'
    /\ Commitment.date_certainty c' = "exact"
    /\ add_date_history_entry env c (isoformat start_date) "update"
       = Ok loaded
    /\ date_history loaded
       = (date_history c
            ++ [PDict [("date", PStr (isoformat start_date));
                       ("source", PStr "update");
                       ("updated_at", PStr (isoformat (utcnow env)))]])%list
    /\ date_history c' = date_history c.
Proof.
  intros Hq M Hok.
  destruct (update_commitment_date_ok s env cid c start_date None None None
              Hq Hok)
    as (s' & c' & Hrun & Hq' & _ & _ & Hc & Hrow & _).
  destruct (add_date_history_entry_ok env c (isoformat start_date) "update"
              Hok) as (loaded & Hadd & Hh & _).
  exists s', c', loaded. repeat split; auto.
  rewrite Hrow. unfold date_history. cbn [refined_row Commitment.metadata].
  now rewrite M.
Qed.

Lemma update_commitment_date_defaults_witness :
  query_commitment offsite_created 1 = Some offsite
  /\ exists s' c' loaded,
       update_commitment_date offsite_created (env_at 2 10) 1 (december 15 0)
         None None None = (s', Ok tt)
       /\ query_commitment s' 1 = Some c'
       /\ Commitment.date_certainty c' = "exact"
       /\ add_date_history_entry (env_at 2 10) offsite
            (isoformat (december 15 0)) "update" = Ok loaded
       /\ date_history loaded
          = [PDict [("date", PStr "2025-12-15T00:00:00");
                    ("source", PStr "update");
                    ("updated_at", PStr "2025-11-03T10:00:00")]]
       /\ date_history c' = [].
Proof.
  assert (H : query_commitment offsite_created 1 = Some offsite)
    by (vm_compute; reflexivity).
  split; [exact H|].
  exact (update_commitment_date_defaults offsite_created (env_at 2 10) 1
           offsite [] (december 15 0) H eq_refl eq_refl).
Defined.

(** ** The history at commit *)

Lemma refine_all_dict_metadata (calls : list refine_call) :
  forall (s : Session) (cid : uuid) (c : Commitment.t) (d : dict),
    query_commitment s cid = Some c ->
    Commitment.metadata c = PDict d ->
    history_ok c = true ->
    snd (refine_all s cid calls) = true
    /\ exists c',
         query_commitment (fst (refine_all s cid calls)) cid = Some c'
         /\ Commitment.metadata c' = PDict d.
Proof.
  induction calls as [|call calls IH]; intros s cid c d Hq M Hok.
  - cbn. eauto.
  - destruct (update_commitment_date_ok s (rc_env call) cid c
                (rc_start_date call) (rc_end_date call)
                (rc_date_certainty call) (rc_source call) Hq Hok)
      as (s1 & c1 & Hrun & Hq1 & _ & _ & _ & Hrow & Hok1).
    assert (M1 : Commitment.metadata c1 = PDict d).
    { rewrite Hrow. cbn [refined_row Commitment.metadata]. now rewrite M. }
    destruct (IH s1 cid c1 d Hq1 M1 Hok1) as (Hall & c' & Hq' & M').
    cbn [refine_all]. unfold refine. rewrite Hrun.
    destruct (refine_all s1 cid calls) as [s2 ok]. cbn [fst snd] in *.
    rewrite Hall. eauto.
Qed.

(** C2, on the code: for a stored commitment whose [metadata] is a
    dictionary (every commitment [create_commitment] makes has one), any
    [N] calls of [update_commitment_date] all return and leave the stored
    [metadata], and with it [date_history], exactly as it was.  Each call
    appends its entry to the loaded dictionary in place, and the commit
    does not send a change made in place. *)
Theorem date_history_not_stored (s : Session) (cid : uuid)
    (c : Commitment.t) (d : dict) (calls : list refine_call) :
  query_commitment s cid = Some c ->
  Commitment.metadata c = PDict d ->
  history_ok c = true ->
  snd (refine_all s cid calls) = true
  /\ exists c',
       query_commitment (fst (refine_all s cid calls)) cid = Some c'
       /\ Commitment.metadata c' = Commitment.metadata c
       /\ date_history c' = date_history c.
Proof.
  intros Hq M Hok.
  destruct (refine_all_dict_metadata calls s cid c d Hq M Hok)
    as (Hall & c' & Hq' & M').
  split; [exact Hall|]. exists c'. split; [exact Hq'|].
  unfold date_history. rewrite M', M. auto.
Qed.

Lemma date_history_not_stored_witness :
  query_commitment offsite_created 1 = Some offsite
  /\ List.length offsite_calls = 3%nat
  /\ snd (refine_all offsite_created 1 offsite_calls) = true
  /\ exists c',
       query_commitment (fst (refine_all offsite_created 1 offsite_calls)) 1
       = Some c'
       /\ Commitment.metadata c' = PDict []
       /\ date_history c' = [].
Proof.
  assert (H : query_commitment offsite_created 1 = Some offsite)
    by (vm_compute; reflexivity).
  split; [exact H|]. split; [reflexivity|].
  exact (date_history_not_stored offsite_created 1 offsite [] offsite_calls
           H eq_refl eq_refl).
Defined.

(** ** Stored constraints *)

Lemma existsb_false_filter {A : Type} (p : A -> bool) (l : list A) :
  existsb p l = false -> filter p l = [].
Proof.
  induction l as [|x l IH]; simpl; [reflexivity|].
  destruct (p x); simpl; [discriminate|exact IH].
Qed.

Lemma same_link_true (cid : uuid) (mid : string) (r : CommitmentEmail.t) :
  same_link cid mid r = true ->
  CommitmentEmail.commitment_id r = cid /\ CommitmentEmail.message_id r = mid.
Proof.
  unfold same_link. intros H. apply andb_prop in H. destruct H as [H1 H2].
  split; [now apply Z.eqb_eq|now apply String.eqb_eq].
Qed.

(** Under [uq_commitment_email] a linked pair has exactly one row. *)
Lemma unique_link_count (cid : uuid) (mid : string)
    (l : list CommitmentEmail.t) :
  uniqueb
    (fun a b =>
       same_link (CommitmentEmail.commitment_id a)
         (CommitmentEmail.message_id a) b) l = true ->
  existsb (same_link cid mid) l = true ->
  List.length (filter (same_link cid mid) l) = 1%nat.
Proof.
  induction l as [|x l IH]; simpl; [discriminate|].
  intros Hu He. apply andb_prop in Hu. destruct Hu as [Hx Hu].
  destruct (same_link cid mid x) eqn:E.
  - apply same_link_true in E. destruct E as [<- <-].
    apply negb_true_iff in Hx.
    now rewrite (existsb_false_filter
                   (same_link (CommitmentEmail.commitment_id x)
                      (CommitmentEmail.message_id x)) l Hx).
  - simpl in He. auto.
Qed.

(** Under the foreign key no link row names an unknown commitment. *)
Lemma no_link_without_commitment (h : uuid -> bool) (cid : uuid)
    (mid : string) (l : list CommitmentEmail.t) :
  forallb (fun r => h (CommitmentEmail.commitment_id r)) l = true ->
  h cid = false ->
  existsb (same_link cid mid) l = false.
Proof.
  intros Hall Hc. induction l as [|x l IH]; simpl in *; [reflexivity|].
  apply andb_prop in Hall. destruct Hall as [Hx Hall].
  rewrite (IH Hall), orb_false_r.
  destruct (same_link cid mid x) eqn:E; [|reflexivity].
  apply same_link_true in E. destruct E as [E _]. congruence.
Qed.

Lemma session_ok_emails (s : Session) :
  session_ok s = true ->
  uniqueb
    (fun a b =>
       same_link (CommitmentEmail.commitment_id a)
         (CommitmentEmail.message_id a) b) (commitment_emails s) = true
  /\ forallb (fun l => has_commitment s (CommitmentEmail.commitment_id l))
       (commitment_emails s) = true.
Proof.
  unfold session_ok. intros H.
  repeat (apply andb_prop in H; destruct H as [H ?]). auto.
Qed.

Lemma has_commitment_query (s : Session) (u : uuid) :
  has_commitment s u
  = match query_commitment s u with Some _ => true | None => false end.
Proof.
  unfold has_commitment, query_commitment.
  induction (commitments s) as [|c l IH]; simpl; [reflexivity|].
  destruct (Commitment.id c =? u); [reflexivity|exact IH].
Qed.

(** ** Linking emails *)

(** C1: for a commitment id that resolves and any message id, two
    [link_email_to_commitment] calls with that pair leave exactly one
    stored link for it.  The second call is rejected by
    [uq_commitment_email] (the duplicate-link outcome, raised rather than
    fatal) and writes nothing; when the pair was not linked before, the
    first call returns the link it stored. *)
Theorem link_email_twice (s : Session) (env1 env2 : Env) (cid : uuid)
    (mid : string) (by1 by2 : option string) (score1 score2 : option float)
    (reason1 reason2 : option string) :
  session_ok s = true ->
  has_commitment s cid = true ->
  fresh_email_id s (uuid4 env1) = true ->
  fresh_email_id s (uuid4 env2) = true ->
  uuid4 env1 <> uuid4 env2 ->
  let first := link_email_to_commitment s env1 cid mid by1 score1 reason1 in
  let second :=
    link_email_to_commitment (fst first) env2 cid mid by2 score2 reason2 in
  snd second = Raise (IntegrityError (UniqueViolation "uq_commitment_email"))
  /\ fst second = fst first
  /\ link_count (fst second) cid mid = 1%nat
  /\ (link_count s cid mid = 0%nat ->
      exists link,
        snd first = Ok link
        /\ CommitmentEmail.commitment_id link = cid
        /\ CommitmentEmail.message_id link = mid
        /\ commitment_emails (fst first)
           = (commitment_emails s ++ [link])%list).
Proof.
  intros Hok Hc F1 F2 Hne.
  destruct (session_ok_emails s Hok) as [Hu _].
  unfold fresh_email_id in F1, F2.
  apply negb_true_iff in F1. apply negb_true_iff in F2.
  unfold link_email_to_commitment, insert_commitment_email, link_count.
  cbn [CommitmentEmail.id CommitmentEmail.commitment_id
       CommitmentEmail.message_id].
  rewrite F1, Hc. cbn [negb].
  destruct (existsb (same_link cid mid) (commitment_emails s)) eqn:D;
    cbn [fst snd commitment_emails].
  - rewrite F2, D. cbn [fst snd]. repeat split.
    + now apply unique_link_count.
    + intros H0. rewrite (unique_link_count cid mid _ Hu D) in H0.
      discriminate.
  - assert (Hself : forall l,
               same_link cid mid
                 (CommitmentEmail.mk (uuid4 env1) cid mid l
                    (default "ai" by1) score1 reason1) = true).
    { intros l. unfold same_link. cbn.
      now rewrite Z.eqb_refl, String.eqb_refl. }
    rewrite !existsb_app, F2, D. cbn [existsb CommitmentEmail.id].
    rewrite Hself.
    replace (uuid4 env1 =? uuid4 env2) with false
      by (symmetry; now apply Z.eqb_neq).
    cbn [orb fst snd commitment_emails]. repeat split.
    + rewrite filter_app, (existsb_false_filter _ _ D). cbn [filter app].
      now rewrite Hself.
    + intros _. eexists. repeat split.
Qed.

Lemma link_email_twice_witness :
  session_ok offsite_created = true
  /\ has_commitment offsite_created 1 = true
  /\ let first :=
       link_email_to_commitment offsite_created (env_at 10 12) 1 "msg-1"
         (Some "ai") (Some confidence_042) None in
     let second :=
       link_email_to_commitment (fst first) (env_at 11 13) 1 "msg-1" None
         None None in
     snd second
     = Raise (IntegrityError (UniqueViolation "uq_commitment_email"))
     /\ fst second = fst first
     /\ link_count (fst second) 1 "msg-1" = 1%nat
     /\ (link_count offsite_created 1 "msg-1" = 0%nat ->
         exists link,
           snd first = Ok link
           /\ CommitmentEmail.commitment_id link = 1
           /\ CommitmentEmail.message_id link = "msg-1"
           /\ commitment_emails (fst first)
              = (commitment_emails offsite_created ++ [link])%list).
Proof.
  split; [vm_compute; reflexivity|]. split; [vm_compute; reflexivity|].
  apply (link_email_twice offsite_created (env_at 10 12) (env_at 11 13) 1
           "msg-1" (Some "ai") None (Some confidence_042) None None None);
    try (vm_compute; reflexivity).
  discriminate.
Defined.

(** ** Unknown commitment ids *)

(** C6: when the commitment id does not resolve,
    [update_commitment_date] raises its "not found" [ValueError] and
    [link_email_to_commitment] is rejected by the foreign key to
    [commitments.id] at commit; either way the session is exactly what it
    was: no history entry, no link row. *)
Theorem unknown_commitment_id_fails (s : Session) (env : Env) (cid : uuid) :
  query_commitment s cid = None ->
  (forall (start_date : datetime) (end_date : option datetime)
          (date_certainty source : option string),
      update_commitment_date s env cid start_date end_date date_certainty
        source
      = (s, Raise (ValueError
                     ("Commitment " ++ str_uuid cid ++ " not found"))))
  /\ (forall (mid : string) (linked_by : option string)
             (score : option float) (reason : option string),
         session_ok s = true ->
         fresh_email_id s (uuid4 env) = true ->
         link_email_to_commitment s env cid mid linked_by score reason
         = (s, Raise (IntegrityError
                        (ForeignKeyViolation
                           "commitment_emails_commitment_id_fkey")))).
Proof.
  intros Hq. split.
  - intros. unfold update_commitment_date. now rewrite Hq.
  - intros mid linked_by score reason Hok F.
    destruct (session_ok_emails s Hok) as [_ Hfk].
    assert (Hc : has_commitment s cid = false)
      by (now rewrite has_commitment_query, Hq).
    unfold fresh_email_id in F. apply negb_true_iff in F.
    unfold link_email_to_commitment, insert_commitment_email.
    cbn [CommitmentEmail.id CommitmentEmail.commitment_id
         CommitmentEmail.message_id].
    rewrite F, Hc.
    now rewrite (no_link_without_commitment (has_commitment s) cid mid
                   (commitment_emails s) Hfk Hc).
Qed.

Lemma unknown_commitment_id_fails_witness :
  query_commitment offsite_linked 7 = None
  /\ update_commitment_date offsite_linked (env_at 12 14) 7 (december 15 0)
       None None None
     = (offsite_linked,
        Raise (ValueError
                 "Commitment 00000000-0000-0000-0000-000000000007 not found"))
  /\ link_email_to_commitment offsite_linked (env_at 12 14) 7 "msg-1" None
       None None
     = (offsite_linked,
        Raise (IntegrityError
                 (ForeignKeyViolation
                    "commitment_emails_commitment_id_fkey"))).
Proof.
  assert (H : query_commitment offsite_linked 7 = None)
    by (vm_compute; reflexivity).
  split; [exact H|].
  destruct (unknown_commitment_id_fails offsite_linked (env_at 12 14) 7 H)
    as [Hr Hl].
  split.
  - exact (Hr (december 15 0) None None None).
  - apply Hl; vm_compute; reflexivity.
Defined.

(** ** Creation *)

(** What [create_commitment] stores when the primary key is new: the
    arguments as given, the column defaults elsewhere. *)
Lemma create_commitment_ok (s : Session) (env : Env) (title : string)
    (commitment_type : option string) (start_date end_date : option datetime)
    (date_certainty : option string) (kwargs : Kwargs.t) :
  fresh_commitment_id s (default (uuid4 env) (Kwargs.id kwargs)) = true ->
  exists c,
    create_commitment s env title commitment_type start_date end_date
      date_certainty kwargs
    = (mk_session (commitments s ++ [c]) (commitment_emails s)
         (commitment_calendar_events s), Ok c)
    /\ Commitment.id c = default (uuid4 env) (Kwargs.id kwargs)
    /\ Commitment.title c = title
    /\ Commitment.start_date c = start_date
    /\ Commitment.end_date c = end_date
    /\ Commitment.date_certainty c = default "unknown" date_certainty
    /\ Commitment.status c = default "active" (Kwargs.status kwargs)
    /\ Commitment.metadata c = default (PDict []) (Kwargs.metadata kwargs)
    /\ Commitment.created_at c
       = Some (default (now env) (Kwargs.created_at kwargs))
    /\ Commitment.updated_at c
       = Some (default (now env) (Kwargs.updated_at kwargs)).
Proof.
  unfold fresh_commitment_id. intros F. apply negb_true_iff in F.
  unfold create_commitment, insert_commitment. cbn [Commitment.id].
  rewrite F. eexists. split; [reflexivity|]. cbn. auto 10.
Qed.

Lemma query_after_insert (s : Session) (c : Commitment.t) :
  has_commitment s (Commitment.id c) = false ->
  query_commitment
    (mk_session (commitments s ++ [c]) (commitment_emails s)
       (commitment_calendar_events s)) (Commitment.id c) = Some c.
Proof.
  unfold has_commitment, query_commitment. cbn [commitments].
  induction (commitments s) as [|r l IH]; simpl.
  - now rewrite Z.eqb_refl.
  - destruct (Commitment.id r =? Commitment.id c); [discriminate|exact IH].
Qed.

(** C8: with a new primary key and no keyword overriding [status],
    [metadata], [created_at] or [updated_at], [create_commitment] returns
    and stores a commitment, for every title and certainty, whose status
    is ['active'], whose [date_history] is empty and whose [created_at]
    and [updated_at] are the same instant. *)
Theorem create_commitment_defaults (s : Session) (env : Env)
    (title : string) (commitment_type : option string)
    (start_date end_date : option datetime) (date_certainty : option string)
    (kwargs : Kwargs.t) :
  fresh_commitment_id s (default (uuid4 env) (Kwargs.id kwargs)) = true ->
  Kwargs.status kwargs = None ->
  Kwargs.metadata kwargs = None ->
  Kwargs.created_at kwargs = None ->
  Kwargs.updated_at kwargs = None ->
  exists s' c,
    create_commitment s env title commitment_type start_date end_date
      date_certainty kwargs = (s', Ok c)
    /\ query_commitment s' (Commitment.id c) = Some c
    /\ Commitment.title c = title
    /\ Commitment.date_certainty c = default "unknown" date_certainty
    /\ Commitment.status c = "active"
    /\ date_history c = []
    /\ Commitment.created_at c = Commitment.updated_at c
    /\ Commitment.created_at c = Some (now env).
Proof.
  intros F Hs Hm Hc Hu.
  destruct (create_commitment_ok s env title commitment_type start_date
              end_date date_certainty kwargs F)
    as (c & Hrun & Hid & Ht & _ & _ & Hdc & Hst & Hmd & Hca & Hua).
  rewrite Hs in Hst. rewrite Hm in Hmd. rewrite Hc in Hca. rewrite Hu in Hua.
  cbn [default] in *.
  eexists _, c. split; [exact Hrun|]. repeat split; auto.
  - apply query_after_insert. rewrite Hid.
    unfold fresh_commitment_id in F. now apply negb_true_iff in F.
  - unfold date_history. now rewrite Hmd.
  - congruence.
Qed.

Lemma create_commitment_defaults_witness :
  exists s' c,
    create_commitment empty_session (env_at 1 9) "Team Offsite" (Some "trip")
      (Some (december 1 0)) None (Some "month") Kwargs.none = (s', Ok c)
    /\ query_commitment s' (Commitment.id c) = Some c
    /\ Commitment.title c = "Team Offsite"
    /\ Commitment.date_certainty c = "month"
    /\ Commitment.status c = "active"
    /\ date_history c = []
    /\ Commitment.created_at c = Commitment.updated_at c
    /\ Commitment.created_at c = Some (now (env_at 1 9)).
Proof.
  apply (create_commitment_defaults empty_session (env_at 1 9) "Team Offsite"
           (Some "trip") (Some (december 1 0)) None (Some "month")
           Kwargs.none); reflexivity.
Defined.

(** C4, as stated, fails: [create_commitment] returns and stores a
    commitment for an empty title, and for an end date before the start
    date. *)
Lemma create_commitment_accepts_empty_title_and_inverted_dates :
  (exists s' c,
      create_commitment empty_session (env_at 1 9) "" None None None None
        Kwargs.none = (s', Ok c)
      /\ Commitment.title c = ""
      /\ commitments s' = [c])
  /\ (exists s' c,
         create_commitment empty_session (env_at 1 9) "Team Offsite" None
           (Some (december 17 0)) (Some (december 15 0)) None Kwargs.none
         = (s', Ok c)
         /\ dt_lt (december 15 0) (december 17 0) = true
         /\ Commitment.start_date c = Some (december 17 0)
         /\ Commitment.end_date c = Some (december 15 0)
         /\ commitments s' = [c]).
Proof.
  split; eexists _, _; (split; [vm_compute; reflexivity|]);
    repeat split.
Qed.

(** C4, amended: [create_commitment] does not validate its arguments.
    Whenever the primary key is new it returns the commitment and stores
    it as one more row, with the title and the two dates exactly as
    supplied: also when the title is empty and when the end date precedes
    the start date. *)
Theorem create_commitment_no_validation (s : Session) (env : Env)
    (title : string) (commitment_type : option string)
    (start_date end_date : option datetime) (date_certainty : option string)
    (kwargs : Kwargs.t) :
  fresh_commitment_id s (default (uuid4 env) (Kwargs.id kwargs)) = true ->
  exists c,
    create_commitment s env title commitment_type start_date end_date
      date_certainty kwargs
    = (mk_session (commitments s ++ [c]) (commitment_emails s)
         (commitment_calendar_events s), Ok c)
    /\ Commitment.title c = title
    /\ Commitment.start_date c = start_date
    /\ Commitment.end_date c = end_date.
Proof.
  intros F.
  destruct (create_commitment_ok s env title commitment_type start_date
              end_date date_certainty kwargs F)
    as (c & Hrun & _ & Ht & Hs & He & _).
  exists c. auto.
Qed.

Lemma create_commitment_no_validation_witness :
  exists c,
    create_commitment offsite_created (env_at 2 10) "" None
      (Some (december 17 0)) (Some (december 15 0)) None Kwargs.none
    = (mk_session (commitments offsite_created ++ [c])
         (commitment_emails offsite_created)
         (commitment_calendar_events offsite_created), Ok c)
    /\ Commitment.title c = ""
    /\ Commitment.start_date c = Some (december 17 0)
    /\ Commitment.end_date c = Some (december 15 0).
Proof.
  apply (create_commitment_no_validation offsite_created (env_at 2 10) ""
           None (Some (december 17 0)) (Some (december 15 0)) None
           Kwargs.none).
  vm_compute; reflexivity.
Defined.

(** ** Date order *)

(** C7, as stated, fails: creation stores an end date that precedes the
    start date, and a refine that moves the start past the stored end
    date leaves the two out of order. *)
Lemma dates_out_of_order_after_create_and_refine :
  (exists s' c,
      create_commitment empty_session (env_at 1 9) "Team Offsite" None
        (Some (december 17 0)) (Some (december 15 0)) None Kwargs.none
      = (s', Ok c)
      /\ dates_ordered c = false)
  /\ (query_commitment offsite_refined 1 = Some offsite_day
      /\ dates_ordered offsite_day = true
      /\ exists s' c',
           update_commitment_date offsite_refined (env_at 3 11) 1
             (december 20 0) None None None = (s', Ok tt)
           /\ query_commitment s' 1 = Some c'
           /\ Commitment.start_date c' = Some (december 20 0)
           /\ Commitment.end_date c' = Some (december 17 0)
           /\ dates_ordered c' = false).
Proof.
  split; [|split; [|split]].
  - eexists _, _. split; [vm_compute; reflexivity|].
    vm_compute; reflexivity.
  - vm_compute; reflexivity.
  - vm_compute; reflexivity.
  - eexists _, _. split; [vm_compute; reflexivity|].
    repeat split; vm_compute; reflexivity.
Qed.

(** C7, amended: neither helper compares the two dates.  After creation
    they are the supplied values; after a refine the start date is the new
    start and the end date is the new end when one is given, the stored
    end otherwise.  So the end date does not precede the start date after
    the operation exactly when that holds of those values. *)
Theorem dates_ordered_as_supplied :
  (forall (s : Session) (env : Env) (title : string)
          (commitment_type : option string)
          (start_date end_date : option datetime)
          (date_certainty : option string) (kwargs : Kwargs.t),
      fresh_commitment_id s (default (uuid4 env) (Kwargs.id kwargs)) = true ->
      exists s' c,
        create_commitment s env title commitment_type start_date end_date
          date_certainty kwargs = (s', Ok c)
        /\ dates_ordered c
           = match start_date, end_date with
             | Some b, Some e => negb (dt_lt e b)
             | _, _ => true
             end)
  /\ (forall (s : Session) (env : Env) (cid : uuid) (c : Commitment.t)
             (new_start : datetime) (new_end : option datetime)
             (date_certainty source : option string),
         query_commitment s cid = Some c ->
         history_ok c = true ->
         exists s' c',
           update_commitment_date s env cid new_start new_end date_certainty
             source = (s', Ok tt)
           /\ query_commitment s' cid = Some c'
           /\ dates_ordered c'
              = match new_end, Commitment.end_date c with
                | Some e, _ | None, Some e => negb (dt_lt e new_start)
                | None, None => true
                end).
Proof.
  split.
  - intros s env title ty sd ed dc kw F.
    destruct (create_commitment_ok s env title ty sd ed dc kw F)
      as (c & Hrun & _ & _ & Hs & He & _).
    eexists _, c. split; [exact Hrun|].
    unfold dates_ordered. now rewrite Hs, He.
  - intros s env cid c new_start new_end dc src Hq Hok.
    destruct (update_commitment_date_ok s env cid c new_start new_end dc src
                Hq Hok)
      as (s' & c' & Hrun & Hq' & Hs & He & _).
    exists s', c'. split; [exact Hrun|]. split; [exact Hq'|].
    unfold dates_ordered. rewrite Hs, He.
    destruct new_end; [reflexivity|]. now destruct (Commitment.end_date c).
Qed.

Lemma dates_ordered_as_supplied_witness :
  (exists s' c,
      create_commitment empty_session (env_at 1 9) "Team Offsite" None
        (Some (december 15 0)) (Some (december 17 0)) None Kwargs.none
      = (s', Ok c)
      /\ dates_ordered c = true)
  /\ (exists s' c',
         update_commitment_date offsite_refined (env_at 3 11) 1
           (december 15 14) None (Some "exact") (Some "email-2") = (s', Ok tt)
         /\ query_commitment s' 1 = Some c'
         /\ dates_ordered c' = true).
Proof.
  destruct dates_ordered_as_supplied as [Hc Hr]. split.
  - apply (Hc empty_session (env_at 1 9) "Team Offsite" None
             (Some (december 15 0)) (Some (december 17 0)) None Kwargs.none).
    reflexivity.
  - apply (Hr offsite_refined (env_at 3 11) 1 offsite_day (december 15 14)
             None (Some "exact") (Some "email-2"));
      vm_compute; reflexivity.
Defined.

(** ** Serialization *)

(** C9: [to_dict] returns one flat mapping whose keys are the eighteen
    columns followed by the two counts, each column under its own name
    with its own value; [email_count] and [calendar_event_count] are the
    numbers of link rows that name the commitment; each of the four
    timestamps is its ISO text when present and [None] when absent. *)
Theorem to_dict_fields (s : Session) (c : Commitment.t) :
  map fst (to_dict s c)
  = ["id"; "title"; "description"; "commitment_type"; "status";
     "start_date"; "end_date"; "timezone"; "date_certainty"; "participants";
     "organizer"; "location"; "meeting_links"; "auto_linked";
     "confidence_score"; "metadata"; "created_at"; "updated_at";
     "email_count"; "calendar_event_count"]
  /\ dict_get (to_dict s c) "id" = Some (PStr (str_uuid (Commitment.id c)))
  /\ dict_get (to_dict s c) "title" = Some (PStr (Commitment.title c))
  /\ dict_get (to_dict s c) "description"
     = Some match Commitment.description c with
            | Some t => PStr t
            | None => PNone
            end
  /\ dict_get (to_dict s c) "commitment_type"
     = Some (PStr (Commitment.commitment_type c))
  /\ dict_get (to_dict s c) "status" = Some (PStr (Commitment.status c))
  /\ dict_get (to_dict s c) "start_date"
     = Some match Commitment.start_date c with
            | Some d => PStr (isoformat d)
            | None => PNone
            end
  /\ dict_get (to_dict s c) "end_date"
     = Some match Commitment.end_date c with
            | Some d => PStr (isoformat d)
            | None => PNone
            end
  /\ dict_get (to_dict s c) "timezone"
     = Some match Commitment.timezone c with
            | Some t => PStr t
            | None => PNone
            end
  /\ dict_get (to_dict s c) "date_certainty"
     = Some (PStr (Commitment.date_certainty c))
  /\ dict_get (to_dict s c) "participants"
     = Some (Commitment.participants c)
  /\ dict_get (to_dict s c) "organizer"
     = Some match Commitment.organizer c with
            | Some t => PStr t
            | None => PNone
            end
  /\ dict_get (to_dict s c) "location"
     = Some match Commitment.location c with
            | Some t => PStr t
            | None => PNone
            end
  /\ dict_get (to_dict s c) "meeting_links"
     = Some (Commitment.meeting_links c)
  /\ dict_get (to_dict s c) "auto_linked"
     = Some (PBool (Commitment.auto_linked c))
  /\ dict_get (to_dict s c) "confidence_score"
     = Some match Commitment.confidence_score c with
            | Some f => PFloat f
            | None => PNone
            end
  /\ dict_get (to_dict s c) "metadata" = Some (Commitment.metadata c)
  /\ dict_get (to_dict s c) "created_at"
     = Some match Commitment.created_at c with
            | Some d => PStr (isoformat d)
            | None => PNone
            end
  /\ dict_get (to_dict s c) "updated_at"
     = Some match Commitment.updated_at c with
            | Some d => PStr (isoformat d)
            | None => PNone
            end
  /\ dict_get (to_dict s c) "email_count"
     = Some (PInt (Z.of_nat
                     (List.length
                        (filter
                           (fun l =>
                              CommitmentEmail.commitment_id l
                                =? Commitment.id c)
                           (commitment_emails s)))))
  /\ dict_get (to_dict s c) "calendar_event_count"
     = Some (PInt (Z.of_nat
                     (List.length
                        (filter
                           (fun l =>
                              CommitmentCalendarEvent.commitment_id l
                                =? Commitment.id c)
                           (commitment_calendar_events s))))).
Proof.
  split; [reflexivity|].
  unfold to_dict, linked_emails, linked_calendar_events.
  repeat split; cbn [dict_get]; reflexivity.
Qed.

Lemma to_dict_fields_witness :
  dict_get (to_dict serialized_session serialized) "id"
  = Some (PStr "00000000-0000-0000-0000-000000000005")
  /\ dict_get (to_dict serialized_session serialized) "title"
     = Some (PStr "Board review")
  /\ dict_get (to_dict serialized_session serialized) "description"
     = Some (PStr "Quarterly figures")
  /\ dict_get (to_dict serialized_session serialized) "commitment_type"
     = Some (PStr "meeting")
  /\ dict_get (to_dict serialized_session serialized) "status"
     = Some (PStr "completed")
  /\ dict_get (to_dict serialized_session serialized) "start_date"
     = Some (PStr "2025-12-15T14:00:00+01:00")
  /\ dict_get (to_dict serialized_session serialized) "end_date"
     = Some PNone
  /\ dict_get (to_dict serialized_session serialized) "timezone"
     = Some (PStr "Europe/Paris")
  /\ dict_get (to_dict serialized_session serialized) "date_certainty"
     = Some (PStr "exact")
  /\ dict_get (to_dict serialized_session serialized) "participants"
     = Some (PList [PDict [("email", PStr "a@example.org");
                           ("name", PStr "A");
                           ("role", PStr "chair")]])
  /\ dict_get (to_dict serialized_session serialized) "organizer"
     = Some (PStr "a@example.org")
  /\ dict_get (to_dict serialized_session serialized) "location"
     = Some (PStr "Room 4")
  /\ dict_get (to_dict serialized_session serialized) "meeting_links"
     = Some (PList [PStr "https://meet.example.org/board"])
  /\ dict_get (to_dict serialized_session serialized) "auto_linked"
     = Some (PBool true)
  /\ dict_get (to_dict serialized_session serialized) "confidence_score"
     = Some (PFloat confidence_042)
  /\ dict_get (to_dict serialized_session serialized) "metadata"
     = Some (PDict [("project", PStr "Q4")])
  /\ dict_get (to_dict serialized_session serialized) "created_at"
     = Some (PStr "2025-11-03T09:00:00+00:00")
  /\ dict_get (to_dict serialized_session serialized) "updated_at"
     = Some PNone
  /\ dict_get (to_dict serialized_session serialized) "email_count"
     = Some (PInt 2)
  /\ dict_get (to_dict serialized_session serialized) "calendar_event_count"
     = Some (PInt 1).
Proof.
  destruct (to_dict_fields serialized_session serialized)
    as (_ & H1 & H2 & H3 & H4 & H5 & H6 & H7 & H8 & H9 & H10 & H11 & H12
        & H13 & H14 & H15 & H16 & H17 & H18 & H19 & H20).
  repeat apply conj;
    [rewrite H1|rewrite H2|rewrite H3|rewrite H4|rewrite H5|rewrite H6
    |rewrite H7|rewrite H8|rewrite H9|rewrite H10|rewrite H11|rewrite H12
    |rewrite H13|rewrite H14|rewrite H15|rewrite H16|rewrite H17
    |rewrite H18|rewrite H19|rewrite H20]; vm_compute; reflexivity.
Defined.

Example to_dict_offsite_linked :
  to_dict offsite_linked offsite
  = [ ("id", PStr "00000000-0000-0000-0000-000000000001");
      ("title", PStr "Team Offsite");
      ("description", PNone);
      ("commitment_type", PStr "trip");
      ("status", PStr "active");
      ("start_date", PStr "2025-12-01T00:00:00");
      ("end_date", PNone);
      ("timezone", PNone);
      ("date_certainty", PStr "month");
      ("participants", PList []);
      ("organizer", PNone);
      ("location", PNone);
      ("meeting_links", PList []);
      ("auto_linked", PBool false);
      ("confidence_score", PNone);
      ("metadata", PDict []);
      ("created_at", PStr "2025-11-03T09:00:00+00:00");
      ("updated_at", PStr "2025-11-03T09:00:00+00:00");
      ("email_count", PInt 1);
      ("calendar_event_count", PInt 0) ].
Proof. vm_compute. reflexivity. Qed.

(** A stored link counts; a rejected one does not. *)
Lemma email_count_after_link (s : Session) (env : Env) (c : Commitment.t)
    (mid : string) (linked_by : option string) (score : option float)
    (reason : option string) :
  let r :=
    link_email_to_commitment s env (Commitment.id c) mid linked_by score
      reason in
  List.length (linked_emails (fst r) c)
  = (List.length (linked_emails s c)
     + if is_ok (snd r) then 1 else 0)%nat.
Proof.
  cbv zeta.
  unfold link_email_to_commitment, insert_commitment_email, linked_emails.
  cbn [CommitmentEmail.id CommitmentEmail.commitment_id
       CommitmentEmail.message_id].
  destruct (existsb (fun r => CommitmentEmail.id r =? uuid4 env)
              (commitment_emails s));
    [cbn [fst snd is_ok]; lia|].
  destruct (existsb (same_link (Commitment.id c) mid) (commitment_emails s));
    [cbn [fst snd is_ok]; lia|].
  destruct (has_commitment s (Commitment.id c));
    cbn [negb fst snd is_ok commitment_emails]; [|lia].
  rewrite filter_app, length_app. cbn. now rewrite Z.eqb_refl.
Qed.

(** ** Certainty lattice *)

Lemma position_none (x : string) (l : list string) :
  ~ In x l -> CertaintyLattice.position x l = None.
Proof.
  induction l as [|y l IH]; simpl; [reflexivity|].
  intros H. destruct (String.eqb x y) eqn:E.
  - apply String.eqb_eq in E. subst. exfalso. auto.
  - rewrite IH; auto.
Qed.

Lemma position_some (x : string) (l : list string) :
  In x l -> exists n, CertaintyLattice.position x l = Some n.
Proof.
  induction l as [|y l IH]; simpl; [contradiction|].
  intros [->|H].
  - rewrite String.eqb_refl. eauto.
  - destruct (String.eqb x y); [eauto|].
    destruct (IH H) as [n ->]. eauto.
Qed.

Lemma is_refinement_true (a b : string) :
  CertaintyLattice.is_refinement a b = CertaintyLattice.Returns true ->
  exists ra rb,
    CertaintyLattice.rank a = CertaintyLattice.Returns ra
    /\ CertaintyLattice.rank b = CertaintyLattice.Returns rb
    /\ (ra <= rb)%nat.
Proof.
  unfold CertaintyLattice.is_refinement.
  destruct (CertaintyLattice.rank a) as [ra|]; [|discriminate].
  destruct (CertaintyLattice.rank b) as [rb|]; [|discriminate].
  intros H. injection H as H. apply Nat.leb_le in H. eauto.
Qed.

(** C5: [rank] sends the six labels to their positions in
    unknown < month < week < day < exact < time_confirmed and fails with
    [InvalidCertainty] on every other label; on ranked labels
    [is_refinement a b] is true exactly when the rank of [b] is at least
    the rank of [a]; and the relation is reflexive on the labels and
    transitive. *)
Theorem certainty_lattice_order :
  (CertaintyLattice.rank "unknown" = CertaintyLattice.Returns 0%nat
   /\ CertaintyLattice.rank "month" = CertaintyLattice.Returns 1%nat
   /\ CertaintyLattice.rank "week" = CertaintyLattice.Returns 2%nat
   /\ CertaintyLattice.rank "day" = CertaintyLattice.Returns 3%nat
   /\ CertaintyLattice.rank "exact" = CertaintyLattice.Returns 4%nat
   /\ CertaintyLattice.rank "time_confirmed" = CertaintyLattice.Returns 5%nat)
  /\ (forall label,
         ~ In label CertaintyLattice.labels ->
         CertaintyLattice.rank label
         = CertaintyLattice.Fails (CertaintyLattice.InvalidCertainty label))
  /\ (forall a b,
         In a CertaintyLattice.labels ->
         In b CertaintyLattice.labels ->
         exists ra rb,
           CertaintyLattice.rank a = CertaintyLattice.Returns ra
           /\ CertaintyLattice.rank b = CertaintyLattice.Returns rb
           /\ CertaintyLattice.is_refinement a b
              = CertaintyLattice.Returns (Nat.leb ra rb)
           /\ (CertaintyLattice.is_refinement a b
               = CertaintyLattice.Returns true <-> (rb >= ra)%nat))
  /\ (forall a,
         In a CertaintyLattice.labels ->
         CertaintyLattice.is_refinement a a = CertaintyLattice.Returns true)
  /\ (forall a b c,
         CertaintyLattice.is_refinement a b = CertaintyLattice.Returns true ->
         CertaintyLattice.is_refinement b c = CertaintyLattice.Returns true ->
         CertaintyLattice.is_refinement a c = CertaintyLattice.Returns true).
Proof.
  split; [repeat split|]. split; [|split; [|split]].
  - intros label H. unfold CertaintyLattice.rank.
    now rewrite (position_none label _ H).
  - intros a b Ha Hb.
    destruct (position_some a _ Ha) as [ra Hra].
    destruct (position_some b _ Hb) as [rb Hrb].
    exists ra, rb.
    unfold CertaintyLattice.is_refinement, CertaintyLattice.rank.
    rewrite Hra, Hrb. repeat split; try reflexivity.
    + intros H. injection H as H. apply Nat.leb_le in H. lia.
    + intros H. f_equal. apply Nat.leb_le. lia.
  - intros a Ha. destruct (position_some a _ Ha) as [ra Hra].
    unfold CertaintyLattice.is_refinement, CertaintyLattice.rank.
    rewrite Hra. f_equal. apply Nat.leb_refl.
  - intros a b c Hab Hbc.
    destruct (is_refinement_true a b Hab) as (ra & rb & Ha & Hb & Hle).
    destruct (is_refinement_true b c Hbc) as (rb' & rc & Hb' & Hc & Hle').
    rewrite Hb in Hb'. injection Hb' as <-.
    unfold CertaintyLattice.is_refinement. rewrite Ha, Hc.
    f_equal. apply Nat.leb_le. lia.
Qed.

Example is_refinement_exact_to_day :
  CertaintyLattice.is_refinement "exact" "day"
  = CertaintyLattice.Returns false.
Proof. reflexivity. Qed.

Example is_refinement_unrecognized :
  CertaintyLattice.is_refinement "day" "hour"
  = CertaintyLattice.Fails (CertaintyLattice.InvalidCertainty "hour").
Proof. reflexivity. Qed.

(** ** The stored constraints are an invariant *)

Lemma existsb_false_In {A : Type} (p : A -> bool) (l : list A) (x : A) :
  existsb p l = false -> In x l -> p x = false.
Proof.
  intros H Hin. destruct (p x) eqn:E; [|reflexivity].
  assert (existsb p l = true) by (apply existsb_exists; eauto). congruence.
Qed.

Lemma uniqueb_snoc {A : Type} (eqb : A -> A -> bool) (l : list A) (y : A) :
  uniqueb eqb l = true ->
  (forall x, In x l -> eqb x y = false) ->
  uniqueb eqb (l ++ [y]) = true.
Proof.
  induction l as [|x l IH]; simpl; [reflexivity|].
  intros Hu Hy. apply andb_prop in Hu. destruct Hu as [Hx Hu].
  rewrite IH by auto. rewrite existsb_app. simpl.
  apply negb_true_iff in Hx. rewrite Hx, (Hy x) by auto. reflexivity.
Qed.

Lemma existsb_map_key {A : Type} (p : A -> bool) (f : A -> A) (l : list A) :
  (forall r, p (f r) = p r) -> existsb p (map f l) = existsb p l.
Proof.
  intros Hf. induction l as [|x l IH]; simpl; [reflexivity|].
  now rewrite Hf, IH.
Qed.

Lemma uniqueb_map_key {A : Type} (eqb : A -> A -> bool) (f : A -> A)
    (l : list A) :
  (forall a b, eqb (f a) (f b) = eqb a b) ->
  uniqueb eqb (map f l) = uniqueb eqb l.
Proof.
  intros Hf. induction l as [|x l IH]; simpl; [reflexivity|].
  rewrite IH. f_equal. f_equal. clear IH.
  induction l as [|z l IHl]; simpl; [reflexivity|].
  now rewrite Hf, IHl.
Qed.

Lemma session_ok_empty : session_ok empty_session = true.
Proof. reflexivity. Qed.

Lemma session_ok_insert_commitment (s : Session) (c : Commitment.t) :
  session_ok s = true ->
  has_commitment s (Commitment.id c) = false ->
  session_ok
    (mk_session (commitments s ++ [c]) (commitment_emails s)
       (commitment_calendar_events s)) = true.
Proof.
  unfold session_ok. rewrite !andb_true_iff.
  intros [[[[[[H1 H2] H3] H4] H5] H6] H7] Hc.
  cbn [commitments commitment_emails commitment_calendar_events].
  assert (Hmono : forall u,
             has_commitment s u = true ->
             has_commitment
               (mk_session (commitments s ++ [c]) (commitment_emails s)
                  (commitment_calendar_events s)) u = true).
  { intros u Hu. unfold has_commitment in *. cbn [commitments].
    now rewrite existsb_app, Hu. }
  repeat split; auto.
  - apply uniqueb_snoc; [exact H1|]. intros x Hx.
    exact (existsb_false_In _ _ x Hc Hx).
  - rewrite forallb_forall in *. auto.
  - rewrite forallb_forall in *. auto.
Qed.

Lemma session_ok_insert_email (s : Session) (link : CommitmentEmail.t) :
  session_ok s = true ->
  existsb (fun r => CommitmentEmail.id r =? CommitmentEmail.id link)
    (commitment_emails s) = false ->
  existsb
    (same_link (CommitmentEmail.commitment_id link)
       (CommitmentEmail.message_id link)) (commitment_emails s) = false ->
  has_commitment s (CommitmentEmail.commitment_id link) = true ->
  session_ok
    (mk_session (commitments s) (commitment_emails s ++ [link])
       (commitment_calendar_events s)) = true.
Proof.
  unfold session_ok. rewrite !andb_true_iff.
  intros [[[[[[H1 H2] H3] H4] H5] H6] H7] Hid Hpair Hfk.
  cbn [commitments commitment_emails commitment_calendar_events].
  repeat split; auto.
  - apply uniqueb_snoc; [exact H2|]. intros x Hx.
    exact (existsb_false_In _ _ x Hid Hx).
  - apply uniqueb_snoc; [exact H3|]. intros x Hx.
    pose proof (existsb_false_In _ _ x Hpair Hx) as E.
    destruct (same_link (CommitmentEmail.commitment_id x)
                (CommitmentEmail.message_id x) link) eqn:E'; [|reflexivity].
    apply same_link_true in E'. destruct E' as [E1 E2].
    unfold same_link in E. now rewrite E1, E2, Z.eqb_refl, String.eqb_refl in E.
  - rewrite forallb_forall in *. intros x Hx.
    apply in_app_or in Hx. destruct Hx as [Hx|[<-|[]]].
    + exact (H4 x Hx).
    + exact Hfk.
Qed.

Lemma session_ok_update_commitment (s : Session) (env : Env)
    (loaded c : Commitment.t) (assigned : list string) :
  session_ok s = true ->
  session_ok (update_commitment s env loaded c assigned) = true.
Proof.
  set (f := fun r : Commitment.t =>
              if Commitment.id r =? Commitment.id loaded
              then flush_commitment env loaded c assigned else r).
  assert (Hf : forall r, Commitment.id (f r) = Commitment.id r).
  { intros r. unfold f.
    destruct (Commitment.id r =? Commitment.id loaded) eqn:E; [|reflexivity].
    apply Z.eqb_eq in E. now rewrite E. }
  assert (Hh : forall u,
             has_commitment (update_commitment s env loaded c assigned) u
             = has_commitment s u).
  { intros u. unfold has_commitment, update_commitment. cbn [commitments].
    apply (existsb_map_key (fun r => Commitment.id r =? u) f).
    intros r. now rewrite Hf. }
  unfold session_ok. rewrite !andb_true_iff.
  intros [[[[[[H1 H2] H3] H4] H5] H6] H7].
  repeat split; auto.
  - unfold update_commitment. cbn [commitments]. fold f.
    rewrite uniqueb_map_key; [exact H1|]. intros a b. now rewrite !Hf.
  - rewrite forallb_forall in *. intros x Hx. rewrite Hh. auto.
  - rewrite forallb_forall in *. intros x Hx. rewrite Hh. auto.
Qed.

(** Every helper call takes a session that meets the declared
    constraints to one that meets them. *)
Lemma session_ok_run (o : operation) (s : Session) :
  session_ok s = true -> session_ok (run o s) = true.
Proof.
  intros Hok.
  destruct o as [env title ty sd ed dc kw|env lcid mid lb cs lr|rcid call|];
    cbn [run]; [| | |exact Hok].
  - unfold create_commitment, insert_commitment. cbn [Commitment.id].
    destruct (has_commitment s (default (uuid4 env) (Kwargs.id kw))) eqn:E;
      cbn [fst]; [exact Hok|].
    now apply session_ok_insert_commitment.
  - unfold link_email_to_commitment, insert_commitment_email.
    cbn [CommitmentEmail.id CommitmentEmail.commitment_id
         CommitmentEmail.message_id].
    destruct (existsb (fun r => CommitmentEmail.id r =? uuid4 env)
                (commitment_emails s)) eqn:E1; cbn [fst]; [exact Hok|].
    destruct (existsb (same_link lcid mid) (commitment_emails s)) eqn:E2;
      cbn [fst]; [exact Hok|].
    destruct (has_commitment s lcid) eqn:E3; cbn [negb fst]; [|exact Hok].
    now apply session_ok_insert_email.
  - unfold refine, update_commitment_date.
    destruct (query_commitment s rcid); [|exact Hok].
    match goal with
    | |- context [add_date_history_entry ?e ?x ?d ?src] =>
        destruct (add_date_history_entry e x d src)
    end; cbn [fst]; [|exact Hok].
    now apply session_ok_update_commitment.
Qed.

(** What every call made on a session that accepts calls preserves, a
    run of calls preserves: a refused call changes nothing. *)
Lemma run_from_invariant (P : Session -> Prop) :
  (forall o s, P s -> P (run o s)) ->
  forall ops failed s, P s -> P (run_from failed ops s).
Proof.
  intros Hstep. induction ops as [|o ops IH]; intros failed s Hs;
    [exact Hs|].
  destruct o; destruct failed; cbn [run_from]; apply IH; auto.
Qed.

Lemma session_ok_run_all (ops : list operation) (s : Session) :
  session_ok s = true -> session_ok (run_all ops s) = true.
Proof.
  intros Hok. unfold run_all.
  apply (run_from_invariant (fun s' => session_ok s' = true));
    [exact session_ok_run|exact Hok].
Qed.

(** A commitment created without a [metadata] keyword has a well-shaped
    [metadata], and a refine keeps it well-shaped
    ([update_commitment_date_ok]). *)
Lemma create_commitment_history_ok (s : Session) (env : Env) (title : string)
    (commitment_type : option string) (start_date end_date : option datetime)
    (date_certainty : option string) (kwargs : Kwargs.t) (s' : Session)
    (c : Commitment.t) :
  Kwargs.metadata kwargs = None ->
  create_commitment s env title commitment_type start_date end_date
    date_certainty kwargs = (s', Ok c) ->
  history_ok c = true.
Proof.
  intros Hm. unfold create_commitment, insert_commitment.
  match goal with
  | |- context [if ?b then _ else _] => destruct b
  end; [discriminate|].
  intros H. injection H as _ <-. unfold history_ok. cbn. now rewrite Hm.
Qed.

(** * Further properties of the helpers *)

(** ** The metadata dictionary *)

Lemma dict_get_set_other (d : dict) (k k' : string) (v : value) :
  k' <> k -> dict_get (dict_set d k v) k' = dict_get d k'.
Proof.
  intros Hne. induction d as [|[k0 v0] d IH]; simpl.
  - destruct (String.eqb k' k) eqn:E; [|reflexivity].
    apply String.eqb_eq in E. contradiction.
  - destruct (String.eqb k k0) eqn:E; simpl.
    + destruct (String.eqb k' k0) eqn:E'; [|reflexivity].
      apply String.eqb_eq in E. apply String.eqb_eq in E'. congruence.
    + now rewrite IH.
Qed.

Lemma dict_set_keys (d : dict) (k : string) (v : value) :
  map fst (dict_set d k v)
  = if dict_mem k d then map fst d else (map fst d ++ [k])%list.
Proof.
  unfold dict_mem. induction d as [|[k0 v0] d IH]; simpl; [reflexivity|].
  destruct (String.eqb k k0) eqn:E; simpl; [reflexivity|].
  rewrite IH. now destruct (dict_get d k).
Qed.

(** [add_date_history_entry] on a dictionary touches the ['date_history']
    key only: every other key keeps its value, the keys keep their order,
    and ['date_history'] is added last when it was missing.  No column
    other than [metadata] changes. *)
Theorem add_date_history_entry_keeps_other_keys (env : Env)
    (c c' : Commitment.t) (d : dict) (date_info source : string) :
  Commitment.metadata c = PDict d ->
  add_date_history_entry env c date_info source = Ok c' ->
  exists d',
    c' = set_metadata c (PDict d')
    /\ (forall k, k <> "date_history" -> dict_get d' k = dict_get d k)
    /\ map fst d'
       = (if dict_mem "date_history" d then map fst d
          else map fst d ++ ["date_history"])%list.
Proof.
  intros Hm. unfold add_date_history_entry. rewrite Hm.
  destruct (dict_mem "date_history" d) eqn:M; cbn [negb].
  - destruct (dict_get d "date_history") as [[| | | | |l|]|];
      try discriminate.
    intros H. injection H as <-. eexists. split; [reflexivity|]. split.
    + intros k Hk. now apply dict_get_set_other.
    + now rewrite dict_set_keys, M.
  - rewrite dict_get_set_same.
    intros H. injection H as <-. rewrite dict_set_set.
    eexists. split; [reflexivity|]. split.
    + intros k Hk. now apply dict_get_set_other.
    + now rewrite dict_set_keys, M.
Qed.

Lemma add_date_history_entry_keeps_other_keys_witness :
  exists d',
    add_date_history_entry (env_at 5 10) tagged "December" "email-9"
    = Ok (set_metadata tagged (PDict d'))
    /\ dict_get d' "project" = Some (PStr "Q4")
    /\ map fst d' = ["project"; "attachments"; "date_history"].
Proof.
  destruct (add_date_history_entry_keeps_other_keys (env_at 5 10) tagged
              (set_metadata tagged
                 (PDict [("project", PStr "Q4"); ("attachments", PList []);
                         ("date_history",
                          PList [history_entry (env_at 5 10) "December"
                                   "email-9"])]))
              [("project", PStr "Q4"); ("attachments", PList [])]
              "December" "email-9" eq_refl eq_refl)
    as (d' & Hc & Hget & Hkeys).
  exists d'. split; [|split].
  - cbv [set_metadata] in Hc. injection Hc as <-. reflexivity.
  - rewrite Hget by discriminate. reflexivity.
  - exact Hkeys.
Defined.

(** ** Refining a commitment with a malformed [metadata] *)

(** When the stored [metadata] is neither [None] nor a dictionary,
    [update_commitment_date] raises [TypeError]; when it is a dictionary
    whose ['date_history'] is not a list, it raises [AttributeError].
    Either way nothing is written: the dates and the certainty keep their
    stored values. *)
Theorem update_commitment_date_malformed_metadata (s : Session) (env : Env)
    (cid : uuid) (c : Commitment.t) (start_date : datetime)
    (end_date : option datetime) (date_certainty source : option string) :
  query_commitment s cid = Some c ->
  history_ok c = false ->
  update_commitment_date s env cid start_date end_date date_certainty source
  = (s, Raise match Commitment.metadata c with
              | PDict _ => AttributeError
              | _ => TypeError
              end).
Proof.
  intros Hq Hok. unfold update_commitment_date. rewrite Hq.
  unfold history_ok in Hok. unfold add_date_history_entry.
  destruct (Commitment.metadata c) as [| | | | | |d]; try discriminate;
    try reflexivity.
  unfold dict_mem.
  destruct (dict_get d "date_history") as [[| | | | |l|]|] eqn:G;
    try discriminate; cbn [negb]; rewrite G; reflexivity.
Qed.

Lemma update_commitment_date_malformed_metadata_witness :
  update_commitment_date mixed_session (env_at 5 10) 3 (december 15 0) None
    None None = (mixed_session, Raise AttributeError)
  /\ update_commitment_date mixed_session (env_at 5 10) 4 (december 15 0)
       None None None = (mixed_session, Raise TypeError).
Proof.
  split.
  - apply (update_commitment_date_malformed_metadata mixed_session
             (env_at 5 10) 3 broken_history); reflexivity.
  - apply (update_commitment_date_malformed_metadata mixed_session
             (env_at 5 10) 4 broken_metadata); reflexivity.
Defined.

(** ** What a refine leaves alone *)

(** The outcomes of [update_commitment_date]: it raises and leaves the
    session as it is, or it returns and replaces one row. *)
Lemma update_commitment_date_cases (s : Session) (env : Env) (cid : uuid)
    (start_date : datetime) (end_date : option datetime)
    (date_certainty source : option string) :
  (exists e,
      update_commitment_date s env cid start_date end_date date_certainty
        source = (s, Raise e)
      /\ commit_failed (@Raise unit e) = false)
  \/ (exists c,
         query_commitment s cid = Some c
         /\ update_commitment_date s env cid start_date end_date
              date_certainty source
            = (mk_session
                 (map (fun r =>
                         if Commitment.id r =? Commitment.id c
                         then refined_row env c start_date end_date
                                date_certainty source
                         else r) (commitments s))
                 (commitment_emails s) (commitment_calendar_events s),
               Ok tt)).
Proof.
  destruct (query_commitment s cid) as [c|] eqn:Hq.
  - destruct (history_ok c) eqn:Hok.
    + right. exists c. split; [reflexivity|].
      now apply update_commitment_date_returns.
    + left. unfold update_commitment_date. rewrite Hq. cbv zeta.
      unfold history_ok in Hok. unfold add_date_history_entry.
      destruct (Commitment.metadata c) as [| | | | | |d]; try discriminate;
        try (eexists; split; reflexivity).
      unfold dict_mem.
      destruct (dict_get d "date_history") as [[| | | | |l|]|] eqn:G;
        try discriminate; cbn [negb]; rewrite G; eexists; split; reflexivity.
  - left. unfold update_commitment_date. rewrite Hq.
    eexists; split; reflexivity.
Qed.



(** Whatever its outcome, [update_commitment_date] leaves the two link
    tables as they are, keeps the number of commitments, and leaves every
    commitment with another id exactly as stored. *)
Theorem update_commitment_date_frame (s : Session) (env : Env) (cid : uuid)
    (start_date : datetime) (end_date : option datetime)
    (date_certainty source : option string) :
  let s' :=
    fst (update_commitment_date s env cid start_date end_date date_certainty
           source) in
  commitment_emails s' = commitment_emails s
  /\ commitment_calendar_events s' = commitment_calendar_events s
  /\ List.length (commitments s') = List.length (commitments s)
  /\ (forall other,
         other <> cid -> query_commitment s' other = query_commitment s other).
Proof.
  cbv zeta.
  destruct (update_commitment_date_cases s env cid start_date end_date
              date_certainty source) as [(e & -> & _)|(c & Hq & ->)];
    cbn [fst commitments commitment_emails commitment_calendar_events];
    [auto|].
  repeat split.
  - apply length_map.
  - intros other Hne.
    rewrite (query_replaced_row s c
               (refined_row env c start_date end_date date_certainty source)
               other eq_refl).
    destruct (query_commitment s other) as [r|] eqn:Hr; [|reflexivity].
    cbn [option_map]. f_equal.
    pose proof (query_commitment_id _ _ _ Hr) as Hid.
    pose proof (query_commitment_id _ _ _ Hq) as Hidc.
    destruct (Commitment.id r =? Commitment.id c) eqn:E; [|reflexivity].
    exfalso. apply Hne. apply Z.eqb_eq in E. congruence.
Qed.

(** ** Runs of refinements *)

Lemma refine_all_trace (calls : list refine_call) :
  forall (s : Session) (cid : uuid) (c : Commitment.t),
    query_commitment s cid = Some c ->
    history_ok c = true ->
    exists c',
      query_commitment (fst (refine_all s cid calls)) cid = Some c'
      /\ history_ok c' = true
      /\ Commitment.end_date c' = last_end (Commitment.end_date c) calls
      /\ Commitment.start_date c'
         = fold_left (fun _ call => Some (rc_start_date call)) calls
             (Commitment.start_date c)
      /\ Commitment.date_certainty c'
         = fold_left
             (fun _ call => default "exact" (rc_date_certainty call)) calls
             (Commitment.date_certainty c).
Proof.
  induction calls as [|call calls IH]; intros s cid c Hq Hok.
  - exists c. cbn. auto 10.
  - destruct (update_commitment_date_ok s (rc_env call) cid c
                (rc_start_date call) (rc_end_date call)
                (rc_date_certainty call) (rc_source call) Hq Hok)
      as (s1 & c1 & Hrun & Hq1 & Hs1 & He1 & Hc1 & _ & Hok1).
    destruct (IH s1 cid c1 Hq1 Hok1) as (c' & Hq' & Hok' & He' & Hs' & Hc').
    cbn [refine_all]. unfold refine. rewrite Hrun.
    destruct (refine_all s1 cid calls) as [s2 ok]. cbn [fst] in *.
    exists c'. split; [exact Hq'|]. split; [exact Hok'|].
    cbn [fold_left last_end]. unfold last_end in *.
    rewrite He', He1, Hs', Hs1, Hc', Hc1.
    repeat split.
Qed.

(** Refinements compose as last writer wins, field by field: after a run
    ending in [final], the start date and the certainty are those of
    [final] (['exact'] when it gives none), and the end date is the last
    one any call of the run supplied, the stored one when none did. *)
Theorem refine_all_last_writer_wins (s : Session) (cid : uuid)
    (c : Commitment.t) (calls : list refine_call) (final : refine_call) :
  query_commitment s cid = Some c ->
  history_ok c = true ->
  exists c',
    query_commitment (fst (refine_all s cid (calls ++ [final])%list)) cid
    = Some c'
    /\ Commitment.start_date c' = Some (rc_start_date final)
    /\ Commitment.date_certainty c'
       = default "exact" (rc_date_certainty final)
    /\ Commitment.end_date c'
       = match rc_end_date final with
         | Some e => Some e
         | None => last_end (Commitment.end_date c) calls
         end.
Proof.
  intros Hq Hok.
  destruct (refine_all_trace (calls ++ [final])%list s cid c Hq Hok)
    as (c' & Hq' & _ & He & Hs & Hc).
  exists c'. split; [exact Hq'|].
  unfold last_end in *. rewrite fold_left_app in He, Hs, Hc. auto.
Qed.

Lemma refine_all_last_writer_wins_witness :
  exists c',
    query_commitment (fst (refine_all offsite_created 1 offsite_calls)) 1
    = Some c'
    /\ Commitment.start_date c' = Some (december 15 14)
    /\ Commitment.date_certainty c' = "exact"
    /\ Commitment.end_date c' = Some (december 17 0).
Proof.
  apply (refine_all_last_writer_wins offsite_created 1 offsite
           [ mk_refine_call (env_at 2 10) (december 15 0)
               (Some (december 17 0)) (Some "day") (Some "email-1");
             mk_refine_call (env_at 3 11) (december 15 14) None
               (Some "exact") (Some "email-2") ]
           (mk_refine_call (env_at 4 12) (december 15 14) None (Some "exact")
              (Some "email-2")));
    [vm_compute; reflexivity|reflexivity].
Defined.

(** ** What linking an email changes *)

Lemma link_count_zero (s : Session) (cid : uuid) (mid : string) :
  Nat.eqb (link_count s cid mid) 0
  = negb (existsb (same_link cid mid) (commitment_emails s)).
Proof.
  unfold link_count.
  induction (commitment_emails s) as [|x l IH]; simpl; [reflexivity|].
  destruct (same_link cid mid x); simpl; [reflexivity|exact IH].
Qed.

Lemma same_link_other (cid cid' : uuid) (mid mid' : string)
    (l : CommitmentEmail.t) :
  cid' <> cid \/ mid' <> mid ->
  CommitmentEmail.commitment_id l = cid ->
  CommitmentEmail.message_id l = mid ->
  same_link cid' mid' l = false.
Proof.
  intros Hne <- <-. unfold same_link.
  destruct (CommitmentEmail.commitment_id l =? cid') eqn:E1; [|reflexivity].
  destruct (String.eqb (CommitmentEmail.message_id l) mid') eqn:E2;
    [|reflexivity].
  apply Z.eqb_eq in E1. apply String.eqb_eq in E2.
  destruct Hne as [H|H]; exfalso; apply H; congruence.
Qed.

(** Whatever its outcome, [link_email_to_commitment] leaves the
    commitments (their [auto_linked], [confidence_score] and [updated_at]
    included) and the calendar links untouched, keeps the stored email
    links in place, changes the number of links of no other (commitment,
    message) pair, and adds one link for its own pair exactly when it
    returns. *)
Theorem link_email_to_commitment_frame (s : Session) (env : Env)
    (cid : uuid) (mid : string) (linked_by : option string)
    (score : option float) (reason : option string) :
  let r := link_email_to_commitment s env cid mid linked_by score reason in
  commitments (fst r) = commitments s
  /\ commitment_calendar_events (fst r) = commitment_calendar_events s
  /\ (exists added,
         commitment_emails (fst r) = (commitment_emails s ++ added)%list)
  /\ link_count (fst r) cid mid
     = (link_count s cid mid + if is_ok (snd r) then 1 else 0)%nat
  /\ (forall cid' mid',
         cid' <> cid \/ mid' <> mid ->
         link_count (fst r) cid' mid' = link_count s cid' mid').
Proof.
  cbv zeta.
  assert (Hsame :
            commitments s = commitments s
            /\ commitment_calendar_events s = commitment_calendar_events s
            /\ (exists added,
                   commitment_emails s = (commitment_emails s ++ added)%list)
            /\ link_count s cid mid = (link_count s cid mid + 0)%nat
            /\ (forall cid' mid',
                   cid' <> cid \/ mid' <> mid ->
                   link_count s cid' mid' = link_count s cid' mid')).
  { repeat split; auto. exists []. now rewrite app_nil_r. }
  unfold link_email_to_commitment, insert_commitment_email.
  cbn [CommitmentEmail.id CommitmentEmail.commitment_id
       CommitmentEmail.message_id].
  destruct (existsb (fun r => CommitmentEmail.id r =? uuid4 env)
              (commitment_emails s)); cbn [fst snd is_ok]; [exact Hsame|].
  destruct (existsb (same_link cid mid) (commitment_emails s));
    cbn [fst snd is_ok]; [exact Hsame|].
  destruct (has_commitment s cid); cbn [negb fst snd is_ok]; [|exact Hsame].
  unfold link_count. cbn [commitments commitment_emails
                          commitment_calendar_events].
  repeat split.
  - eexists. reflexivity.
  - rewrite filter_app, length_app. cbn [filter]. unfold same_link at 2.
    cbn [CommitmentEmail.commitment_id CommitmentEmail.message_id].
    now rewrite Z.eqb_refl, String.eqb_refl.
  - intros cid' mid' Hne. rewrite filter_app, length_app. cbn [filter].
    rewrite (same_link_other cid cid' mid mid') by auto.
    cbn. lia.
Qed.

(** With a new link id, [link_email_to_commitment] returns exactly when
    the commitment exists and the pair is not linked yet; the link it then
    stores carries the drawn id, the server clock as [linked_at] and
    ['ai'] as [linked_by] unless the caller names one. *)
Theorem link_email_to_commitment_returns_iff (s : Session) (env : Env)
    (cid : uuid) (mid : string) (linked_by : option string)
    (score : option float) (reason : option string) :
  fresh_email_id s (uuid4 env) = true ->
  let r := link_email_to_commitment s env cid mid linked_by score reason in
  is_ok (snd r) = has_commitment s cid && Nat.eqb (link_count s cid mid) 0
  /\ (is_ok (snd r) = true ->
      snd r = Ok (CommitmentEmail.mk (uuid4 env) cid mid (Some (now env))
                    (default "ai" linked_by) score reason)).
Proof.
  intros F. cbv zeta. unfold fresh_email_id in F. apply negb_true_iff in F.
  rewrite link_count_zero.
  unfold link_email_to_commitment, insert_commitment_email.
  cbn [CommitmentEmail.id CommitmentEmail.commitment_id
       CommitmentEmail.message_id].
  rewrite F.
  destruct (existsb (same_link cid mid) (commitment_emails s));
    destruct (has_commitment s cid); cbn; split; auto; discriminate.
Qed.

Lemma link_email_to_commitment_returns_iff_witness :
  let r :=
    link_email_to_commitment offsite_created (env_at 10 12) 1 "msg-1" None
      (Some confidence_042) None in
  is_ok (snd r) = true
  /\ snd r = Ok (CommitmentEmail.mk 10 1 "msg-1" (Some (now (env_at 10 12)))
                   "ai" (Some confidence_042) None).
Proof.
  destruct (link_email_to_commitment_returns_iff offsite_created
              (env_at 10 12) 1 "msg-1" None (Some confidence_042) None
              eq_refl) as [Hok Hlink].
  split; [exact Hok|]. exact (Hlink Hok).
Defined.

(** In the serialized commitment, [email_count] goes up by one after a
    [link_email_to_commitment] call that returns and names this
    commitment, and is unchanged after any other call of it;
    [calendar_event_count] never changes. *)
Theorem to_dict_counts_after_link (s : Session) (env : Env)
    (c : Commitment.t) (cid : uuid) (mid : string)
    (linked_by : option string) (score : option float)
    (reason : option string) :
  let r := link_email_to_commitment s env cid mid linked_by score reason in
  dict_get (to_dict (fst r) c) "email_count"
  = Some (PInt (Z.of_nat
                  (List.length (linked_emails s c)
                   + if is_ok (snd r) && (cid =? Commitment.id c)
                     then 1 else 0)))
  /\ dict_get (to_dict (fst r) c) "calendar_event_count"
     = dict_get (to_dict s c) "calendar_event_count".
Proof.
  cbv zeta.
  change (dict_get (to_dict (fst (link_email_to_commitment s env cid mid
                                    linked_by score reason)) c)
            "email_count")
    with (Some (PInt (Z.of_nat
                        (List.length
                           (linked_emails
                              (fst (link_email_to_commitment s env cid mid
                                      linked_by score reason)) c))))).
  change (dict_get (to_dict (fst (link_email_to_commitment s env cid mid
                                    linked_by score reason)) c)
            "calendar_event_count")
    with (Some (PInt (Z.of_nat
                        (List.length
                           (linked_calendar_events
                              (fst (link_email_to_commitment s env cid mid
                                      linked_by score reason)) c))))).
  change (dict_get (to_dict s c) "calendar_event_count")
    with (Some (PInt (Z.of_nat
                        (List.length (linked_calendar_events s c))))).
  unfold link_email_to_commitment, insert_commitment_email, linked_emails,
    linked_calendar_events.
  cbn [CommitmentEmail.id CommitmentEmail.commitment_id
       CommitmentEmail.message_id].
  destruct (existsb (fun r => CommitmentEmail.id r =? uuid4 env)
              (commitment_emails s));
    [cbn [fst snd is_ok andb]; now rewrite Nat.add_0_r|].
  destruct (existsb (same_link cid mid) (commitment_emails s));
    [cbn [fst snd is_ok andb]; now rewrite Nat.add_0_r|].
  destruct (has_commitment s cid);
    cbn [negb fst snd is_ok andb commitment_emails
         commitment_calendar_events]; [|now rewrite Nat.add_0_r].
  split; [|reflexivity].
  rewrite filter_app, length_app. cbn [filter CommitmentEmail.commitment_id].
  now destruct (cid =? Commitment.id c).
Qed.

(** ** What creating a commitment changes *)

(** [create_commitment] returns exactly when the primary key (the
    [id] keyword, else the drawn identifier) is new; otherwise it raises
    the primary-key violation and the session is untouched.  Either way
    the link tables are as before and every id that resolved still
    resolves to the same row. *)
Theorem create_commitment_frame (s : Session) (env : Env) (title : string)
    (commitment_type : option string) (start_date end_date : option datetime)
    (date_certainty : option string) (kwargs : Kwargs.t) :
  let r :=
    create_commitment s env title commitment_type start_date end_date
      date_certainty kwargs in
  is_ok (snd r)
  = fresh_commitment_id s (default (uuid4 env) (Kwargs.id kwargs))
  /\ (is_ok (snd r) = false ->
      r = (s, Raise (IntegrityError (UniqueViolation "commitments_pkey"))))
  /\ commitment_emails (fst r) = commitment_emails s
  /\ commitment_calendar_events (fst r) = commitment_calendar_events s
  /\ (forall cid c,
         query_commitment s cid = Some c ->
         query_commitment (fst r) cid = Some c).
Proof.
  cbv zeta. unfold create_commitment, insert_commitment, fresh_commitment_id.
  cbn [Commitment.id].
  destruct (has_commitment s (default (uuid4 env) (Kwargs.id kwargs)));
    cbn [fst snd is_ok negb commitment_emails commitment_calendar_events];
    repeat split; auto; try discriminate.
  intros cid c Hq. unfold query_commitment in *. cbn [commitments].
  now apply find_app_some.
Qed.

Lemma no_email_link_of_unknown (h : uuid -> bool) (u : uuid)
    (l : list CommitmentEmail.t) :
  forallb (fun r => h (CommitmentEmail.commitment_id r)) l = true ->
  h u = false ->
  filter (fun r => CommitmentEmail.commitment_id r =? u) l = [].
Proof.
  intros Hall Hu. induction l as [|x l IH]; simpl in *; [reflexivity|].
  apply andb_prop in Hall. destruct Hall as [Hx Hall].
  destruct (CommitmentEmail.commitment_id x =? u) eqn:E; [|auto].
  apply Z.eqb_eq in E. congruence.
Qed.

Lemma no_calendar_link_of_unknown (h : uuid -> bool) (u : uuid)
    (l : list CommitmentCalendarEvent.t) :
  forallb (fun r => h (CommitmentCalendarEvent.commitment_id r)) l = true ->
  h u = false ->
  filter (fun r => CommitmentCalendarEvent.commitment_id r =? u) l = [].
Proof.
  intros Hall Hu. induction l as [|x l IH]; simpl in *; [reflexivity|].
  apply andb_prop in Hall. destruct Hall as [Hx Hall].
  destruct (CommitmentCalendarEvent.commitment_id x =? u) eqn:E; [|auto].
  apply Z.eqb_eq in E. congruence.
Qed.

(** In a session that meets the declared constraints, a commitment that
    [create_commitment] has just returned serializes with [email_count]
    and [calendar_event_count] both zero: no stored link can already name
    its id. *)
Theorem to_dict_counts_of_new_commitment (s s' : Session) (env : Env)
    (title : string) (commitment_type : option string)
    (start_date end_date : option datetime) (date_certainty : option string)
    (kwargs : Kwargs.t) (c : Commitment.t) :
  session_ok s = true ->
  create_commitment s env title commitment_type start_date end_date
    date_certainty kwargs = (s', Ok c) ->
  dict_get (to_dict s' c) "email_count" = Some (PInt 0)
  /\ dict_get (to_dict s' c) "calendar_event_count" = Some (PInt 0).
Proof.
  intros Hok. unfold create_commitment, insert_commitment. cbn [Commitment.id].
  destruct (has_commitment s (default (uuid4 env) (Kwargs.id kwargs))) eqn:F;
    [discriminate|].
  intros H. injection H as <- <-.
  revert Hok. unfold session_ok. rewrite !andb_true_iff.
  intros [[[[[[_ _] _] H4] _] _] H7].
  change (Some (PInt 0)) with (Some (PInt (Z.of_nat (@List.length uuid [])))).
  split.
  - change (dict_get (to_dict ?x ?y) "email_count")
      with (Some (PInt (Z.of_nat (List.length (linked_emails x y))))).
    unfold linked_emails. cbn [commitment_emails Commitment.id].
    now rewrite (no_email_link_of_unknown (has_commitment s) _ _ H4 F).
  - change (dict_get (to_dict ?x ?y) "calendar_event_count")
      with (Some (PInt (Z.of_nat (List.length (linked_calendar_events x y))))).
    unfold linked_calendar_events.
    cbn [commitment_calendar_events Commitment.id].
    now rewrite (no_calendar_link_of_unknown (has_commitment s) _ _ H7 F).
Qed.

Lemma to_dict_counts_of_new_commitment_witness :
  exists s' c,
    create_commitment offsite_linked (env_at 5 15) "Launch" (Some "project")
      None None None Kwargs.none = (s', Ok c)
    /\ dict_get (to_dict s' c) "email_count" = Some (PInt 0)
    /\ dict_get (to_dict s' c) "calendar_event_count" = Some (PInt 0).
Proof.
  eexists _, _. split; [vm_compute; reflexivity|].
  eapply (to_dict_counts_of_new_commitment offsite_linked _ (env_at 5 15)
            "Launch" (Some "project") None None None Kwargs.none);
    vm_compute; reflexivity.
Defined.

(** ** Looking up what is stored *)

(** In a session that meets the declared constraints every stored
    commitment is the one a lookup by its id returns. *)
Theorem query_commitment_finds_stored_row (s : Session) (c : Commitment.t) :
  session_ok s = true ->
  In c (commitments s) ->
  query_commitment s (Commitment.id c) = Some c.
Proof.
  unfold session_ok. rewrite !andb_true_iff.
  intros [[[[[[H1 _] _] _] _] _] _]. unfold query_commitment.
  induction (commitments s) as [|x l IH]; simpl; [contradiction|].
  simpl in H1. apply andb_prop in H1. destruct H1 as [Hx Hu].
  apply negb_true_iff in Hx.
  intros [->|Hin].
  - now rewrite Z.eqb_refl.
  - rewrite (existsb_false_In _ _ c Hx Hin). auto.
Qed.

Lemma query_commitment_finds_stored_row_witness :
  In tagged (commitments mixed_session)
  /\ query_commitment mixed_session 2 = Some tagged.
Proof.
  assert (Hin : In tagged (commitments mixed_session))
    by (right; left; reflexivity).
  split; [exact Hin|].
  exact (query_commitment_finds_stored_row mixed_session tagged eq_refl Hin).
Defined.

(** ** Runs of helper calls *)

Lemma link_email_tables (s : Session) (env : Env) (cid : uuid)
    (mid : string) (linked_by : option string) (score : option float)
    (reason : option string) :
  let s' :=
    fst (link_email_to_commitment s env cid mid linked_by score reason) in
  commitments s' = commitments s
  /\ commitment_calendar_events s' = commitment_calendar_events s
  /\ exists added,
       commitment_emails s' = (commitment_emails s ++ added)%list.
Proof.
  cbv zeta. unfold link_email_to_commitment, insert_commitment_email.
  repeat match goal with
         | |- context [if ?b then _ else _] => destruct b
         end;
    cbn [fst commitments commitment_emails commitment_calendar_events];
    repeat split; try (exists []; now rewrite app_nil_r).
  eexists. reflexivity.
Qed.

Lemma run_tables (o : operation) (s : Session) :
  (exists added,
      commitment_emails (run o s) = (commitment_emails s ++ added)%list)
  /\ commitment_calendar_events (run o s) = commitment_calendar_events s
  /\ (List.length (commitments s) <= List.length (commitments (run o s)))%nat.
Proof.
  destruct o as [env title ty sd ed dc kw|env lcid mid lb cs lr|rcid call|];
    cbn [run].
  - unfold create_commitment, insert_commitment.
    match goal with
    | |- context [if ?b then _ else _] => destruct b
    end; cbn [fst commitments commitment_emails commitment_calendar_events];
      (split; [exists []; now rewrite app_nil_r|]); (split; [reflexivity|]);
      [lia|].
    rewrite length_app. cbn. lia.
  - destruct (link_email_tables s env lcid mid lb cs lr) as (Hc & Hcal & Hadd).
    rewrite Hc, Hcal. auto.
  - unfold refine.
    destruct (update_commitment_date_cases s (rc_env call) rcid
                (rc_start_date call) (rc_end_date call)
                (rc_date_certainty call) (rc_source call))
      as [(e & -> & _)|(c & Hq & ->)];
      cbn [fst commitments commitment_emails commitment_calendar_events];
      (split; [exists []; now rewrite app_nil_r|]); (split; [reflexivity|]);
      [lia|].
    rewrite length_map. lia.
  - split; [exists []; now rewrite app_nil_r|]. split; [reflexivity|lia].
Qed.

(** No helper ever changes or removes a stored link, and none removes a
    commitment: after any run of calls the email links are the old ones,
    in place, followed by the new ones, the calendar links are exactly
    the old ones, and there are at least as many commitments. *)
Theorem run_all_keeps_links (ops : list operation) (s : Session) :
  (exists added,
      commitment_emails (run_all ops s)
      = (commitment_emails s ++ added)%list)
  /\ commitment_calendar_events (run_all ops s) = commitment_calendar_events s
  /\ (List.length (commitments s)
      <= List.length (commitments (run_all ops s)))%nat.
Proof.
  unfold run_all.
  apply (run_from_invariant
           (fun s' =>
              (exists added,
                  commitment_emails s' = (commitment_emails s ++ added)%list)
              /\ commitment_calendar_events s' = commitment_calendar_events s
              /\ (List.length (commitments s)
                  <= List.length (commitments s'))%nat)).
  - intros o s1 ([a1 H1] & Hc1 & Hl1).
    destruct (run_tables o s1) as ([a2 H2] & Hc2 & Hl2).
    rewrite H2, H1, Hc2, Hc1, <- app_assoc.
    split; [eexists; reflexivity|]. split; [reflexivity|lia].
  - split; [exists []; now rewrite app_nil_r|auto].
Qed.

Lemma unique_link_count_le (cid : uuid) (mid : string)
    (l : list CommitmentEmail.t) :
  uniqueb
    (fun a b =>
       same_link (CommitmentEmail.commitment_id a)
         (CommitmentEmail.message_id a) b) l = true ->
  (List.length (filter (same_link cid mid) l) <= 1)%nat.
Proof.
  intros Hu. destruct (existsb (same_link cid mid) l) eqn:E.
  - rewrite (unique_link_count cid mid l Hu E). lia.
  - rewrite (existsb_false_filter _ _ E). cbn. lia.
Qed.

(** From a session that meets the declared constraints, any run of helper
    calls reaches a session where each (commitment, message) pair has at
    most one link and every email link names a commitment that a lookup
    finds. *)
Theorem run_all_unique_links_no_orphans (ops : list operation)
    (s : Session) :
  session_ok s = true ->
  (forall cid mid, (link_count (run_all ops s) cid mid <= 1)%nat)
  /\ (forall l,
         In l (commitment_emails (run_all ops s)) ->
         exists c,
           query_commitment (run_all ops s)
             (CommitmentEmail.commitment_id l) = Some c).
Proof.
  intros Hok. pose proof (session_ok_run_all ops s Hok) as Hok'.
  destruct (session_ok_emails _ Hok') as [Hu Hfk]. split.
  - intros cid mid. now apply unique_link_count_le.
  - intros l Hin. rewrite forallb_forall in Hfk. specialize (Hfk l Hin).
    rewrite has_commitment_query in Hfk.
    destruct (query_commitment (run_all ops s)
                (CommitmentEmail.commitment_id l)) as [c|];
      [eauto|discriminate].
Qed.

Lemma run_all_unique_links_no_orphans_witness :
  session_ok empty_session = true
  /\ link_count (run_all offsite_operations empty_session) 1 "msg-1" = 1%nat
  /\ link_count (run_all offsite_operations empty_session) 9 "msg-3" = 0%nat
  /\ (forall cid mid,
         (link_count (run_all offsite_operations empty_session) cid mid
          <= 1)%nat)
  /\ (forall l,
         In l (commitment_emails (run_all offsite_operations empty_session)) ->
         exists c,
           query_commitment (run_all offsite_operations empty_session)
             (CommitmentEmail.commitment_id l) = Some c).
Proof.
  split; [reflexivity|]. split; [vm_compute; reflexivity|].
  split; [vm_compute; reflexivity|].
  exact (run_all_unique_links_no_orphans offsite_operations empty_session
           eq_refl).
Defined.

(** ** Columns no helper rewrites *)

Lemma same_descriptive_refl (c : Commitment.t) : same_descriptive c c.
Proof. unfold same_descriptive. auto 20. Qed.

Lemma same_descriptive_trans (a b c : Commitment.t) :
  same_descriptive a b -> same_descriptive b c -> same_descriptive a c.
Proof.
  unfold same_descriptive. intuition congruence.
Qed.

Lemma run_same_descriptive (o : operation) (s : Session) (cid : uuid)
    (c : Commitment.t) :
  query_commitment s cid = Some c ->
  exists c',
    query_commitment (run o s) cid = Some c' /\ same_descriptive c c'.
Proof.
  intros Hq.
  assert (Hsame : exists c',
             query_commitment s cid = Some c' /\ same_descriptive c c').
  { exists c. split; [exact Hq|apply same_descriptive_refl]. }
  destruct o as [env title ty sd ed dc kw|env lcid mid lb cs lr|rcid call|];
    cbn [run]; [| | |exact Hsame].
  - unfold create_commitment, insert_commitment.
    match goal with
    | |- context [if ?b then _ else _] => destruct b
    end; cbn [fst]; [exact Hsame|].
    exists c. split; [|apply same_descriptive_refl].
    unfold query_commitment in *. cbn [commitments].
    now apply find_app_some.
  - destruct (link_email_tables s env lcid mid lb cs lr) as (Hc & _).
    unfold query_commitment in *. now rewrite Hc.
  - unfold refine.
    destruct (update_commitment_date_cases s (rc_env call) rcid
                (rc_start_date call) (rc_end_date call)
                (rc_date_certainty call) (rc_source call))
      as [(e & -> & _)|(c2 & Hq2 & ->)]; cbn [fst]; [exact Hsame|].
    rewrite (query_replaced_row s c2
               (refined_row (rc_env call) c2 (rc_start_date call)
                  (rc_end_date call) (rc_date_certainty call)
                  (rc_source call)) cid eq_refl).
    rewrite Hq. cbn [option_map].
    pose proof (query_commitment_id _ _ _ Hq) as Hid.
    pose proof (query_commitment_id _ _ _ Hq2) as Hid2.
    destruct (Commitment.id c =? Commitment.id c2) eqn:E.
    + apply Z.eqb_eq in E.
      assert (c2 = c) as -> by (rewrite <- Hid2, <- E, Hid in Hq2;
                                 congruence).
      eexists. split; [reflexivity|]. unfold same_descriptive. cbn. auto 20.
    + exists c. split; [reflexivity|apply same_descriptive_refl].
Qed.

(** No helper rewrites what identifies or describes a commitment: after
    any run of calls a stored commitment still resolves, with the same
    id, title, description, type, status, timezone, participants,
    organizer, location, meeting links, [auto_linked] flag, confidence
    score and [created_at].  In particular no call completes or cancels a
    commitment, and linking never sets [auto_linked]. *)
Theorem run_all_keeps_descriptive_columns (ops : list operation) :
  forall (s : Session) (cid : uuid) (c : Commitment.t),
    query_commitment s cid = Some c ->
    exists c',
      query_commitment (run_all ops s) cid = Some c'
      /\ same_descriptive c c'.
Proof.
  intros s cid c Hq. unfold run_all.
  apply (run_from_invariant
           (fun s' =>
              exists c',
                query_commitment s' cid = Some c' /\ same_descriptive c c')).
  - intros o s1 (c1 & Hq1 & H1).
    destruct (run_same_descriptive o s1 cid c1 Hq1) as (c' & Hq' & H').
    exists c'. split; [exact Hq'|].
    exact (same_descriptive_trans c c1 c' H1 H').
  - exists c. split; [exact Hq|apply same_descriptive_refl].
Qed.

Lemma run_all_keeps_descriptive_columns_witness :
  exists c',
    query_commitment
      (run_all
         [ LinkEmail (env_at 10 12) 1 "msg-1" (Some "ai") None None;
           Refine 1 (mk_refine_call (env_at 2 10) (december 15 0)
                       (Some (december 17 0)) (Some "day") (Some "email-1")) ]
         offsite_created) 1 = Some c'
    /\ Commitment.status c' = "active"
    /\ Commitment.auto_linked c' = false
    /\ Commitment.created_at c' = Some (now (env_at 1 9)).
Proof.
  destruct (run_all_keeps_descriptive_columns
              [ LinkEmail (env_at 10 12) 1 "msg-1" (Some "ai") None None;
                Refine 1 (mk_refine_call (env_at 2 10) (december 15 0)
                            (Some (december 17 0)) (Some "day")
                            (Some "email-1")) ]
              offsite_created 1 offsite)
    as (c' & Hq & _ & _ & _ & _ & Hs & _ & _ & _ & _ & _ & Ha & _ & Hc);
    [vm_compute; reflexivity|].
  exists c'. auto.
Defined.

(** ** A commitment whose [metadata] is [None] *)

(** When the stored [metadata] is [None], the method assigns a new
    dictionary before it appends, and that assignment is sent: the first
    refine stores a [date_history] of exactly its own entry and refreshes
    [updated_at].  From then on [metadata] is a dictionary: any later
    refine leaves the stored history at that one entry. *)
Theorem update_commitment_date_none_metadata (s : Session) (env : Env)
    (cid : uuid) (c : Commitment.t) (start_date : datetime)
    (end_date : option datetime) (date_certainty source : option string) :
  query_commitment s cid = Some c ->
  Commitment.metadata c = PNone ->
  exists s' c',
    update_commitment_date s env cid start_date end_date date_certainty source
    = (s', Ok tt)
    /\ query_commitment s' cid = Some c'
    /\ date_history c'
       = [history_entry env
            (match end_date with
             | Some e => isoformat start_date ++ " to " ++ isoformat e
             | None => isoformat start_date
             end)
            (default "update" source)]
    /\ Commitment.updated_at c' = Some (now env)
    /\ (forall (env2 : Env) (start2 : datetime) (end2 : option datetime)
               (certainty2 source2 : option string),
           exists c'',
             query_commitment
               (fst (update_commitment_date s' env2 cid start2 end2
                       certainty2 source2)) cid = Some c''
             /\ date_history c'' = date_history c').
Proof.
  intros Hq M.
  assert (Hok : history_ok c = true) by (unfold history_ok; now rewrite M).
  destruct (update_commitment_date_ok s env cid c start_date end_date
              date_certainty source Hq Hok)
    as (s' & c' & Hrun & Hq' & _ & _ & _ & Hrow & Hok').
  exists s', c'. split; [exact Hrun|]. split; [exact Hq'|].
  assert (M' : exists d, Commitment.metadata c' = PDict d).
  { rewrite Hrow. cbn [refined_row Commitment.metadata]. rewrite M. eauto. }
  split; [|split].
  - rewrite Hrow. unfold date_history.
    cbn [refined_row Commitment.metadata]. now rewrite M.
  - rewrite Hrow. cbn [refined_row Commitment.updated_at].
    unfold refine_changes. now rewrite M.
  - intros env2 start2 end2 certainty2 source2.
    destruct (update_commitment_date_ok s' env2 cid c' start2 end2 certainty2
                source2 Hq' Hok')
      as (s2 & c2 & Hrun2 & Hq2 & _ & _ & _ & Hrow2 & _).
    rewrite Hrun2. exists c2. split; [exact Hq2|].
    destruct M' as [d M']. rewrite Hrow2. unfold date_history.
    cbn [refined_row Commitment.metadata]. now rewrite M'.
Qed.

Lemma update_commitment_date_none_metadata_witness :
  query_commitment bare_session 6 = Some bare
  /\ exists s' c',
       update_commitment_date bare_session (env_at 7 10) 6 (december 15 0)
         None (Some "day") (Some "email-1") = (s', Ok tt)
       /\ query_commitment s' 6 = Some c'
       /\ date_history c'
          = [PDict [("date", PStr "2025-12-15T00:00:00");
                    ("source", PStr "email-1");
                    ("updated_at", PStr "2025-11-03T10:00:00")]]
       /\ Commitment.updated_at c' = Some (now (env_at 7 10))
       /\ exists c'',
            query_commitment
              (fst (update_commitment_date s' (env_at 8 11) 6
                      (december 15 14) None (Some "exact") (Some "email-2")))
              6 = Some c''
            /\ date_history c'' = date_history c'.
Proof.
  assert (H : query_commitment bare_session 6 = Some bare)
    by (vm_compute; reflexivity).
  split; [exact H|].
  destruct (update_commitment_date_none_metadata bare_session (env_at 7 10)
              6 bare (december 15 0) None (Some "day") (Some "email-1") H
              eq_refl)
    as (s' & c' & Hrun & Hq' & Hh & Hu & Hnext).
  exists s', c'. split; [exact Hrun|]. split; [exact Hq'|].
  split; [exact Hh|]. split; [exact Hu|].
  exact (Hnext (env_at 8 11) (december 15 14) None (Some "exact")
           (Some "email-2")).
Defined.
